(** * Segment aggregation engine of ai_baseball: slicing, metrics, trends

    A shallow embedding of [src/src/data_engine.py]: the game-index slicer
    ([slice_by_game_index]), the metric aggregator ([aggregate_metrics]),
    the trend classifier ([_calculate_trend]) and the diagnosis assembler
    ([build_diagnosis_json]).

    Conventions of the embedding.
    - A pandas DataFrame is the list of its rows, in row order; a row is an
      [EventRecord] whose nullable columns are options.
    - Measurements and rates are exact rationals ([Q]) in the first
      embedding, which serves counts, null entries, bounds and the
      structure of results.  Where the last bit of a float or an absent
      column decides, the module [Binary64] embeds the same source lines
      over IEEE 754 binary64 and over frames that say which columns they
      have.
    - Python exceptions are the [Raise] results of an error monad.  A
      division by zero and the mean or maximum of an empty Series (which
      numpy answers with nan and a RuntimeWarning) are faults of the model
      too, so that a result [Ok] shows that none of them was evaluated. *)

From Stdlib Require Import ZArith QArith Qabs Qround Lia Lqa SpecFloat.
From stdpp Require Import base list sorting gmap strings pretty.

Local Open Scope Z_scope.
Set Warnings "-clear-no-such-hyp".

(** ** Exceptions and results *)

Inductive exception :=
  | ValueError (msg : string)
  | KeyError (key : string)
  | TypeError
  | ZeroDivisionError
  | FloatingPointError.

Inductive result (A : Type) :=
  | Ok (a : A)
  | Raise (e : exception).
Arguments Ok {A} a.
Arguments Raise {A} e.

Definition bind {A B} (r : result A) (k : A → result B) : result B :=
  match r with
  | Ok a => k a
  | Raise e => Raise e
  end.

Notation "x <- r ;; k" := (bind r (λ x, k))
  (at level 100, r at next level, right associativity).

(** ** Event records and frames *)

(** One row of the Statcast frame.  [game_date] is the parsed timestamp
    ([pd.to_datetime] is the identity on it), counted in days.
    [game_index] is the column [slice_by_game_index] adds; it is [None] in
    a frame that comes from the provider. *)
Record EventRecord := {
  game_date : Z;
  events : option string;
  description : option string;
  launch_speed : option Q;
  launch_angle : option Q;
  hit_distance_sc : option Q;
  release_spin_rate : option Q;
  game_index : option nat
}.

Abbreviation DataFrame := (list EventRecord).

(** ** Series operations *)

(** [Series.drop_duplicates]: the first occurrence of each value is kept. *)
Fixpoint drop_duplicates (l : list Z) : list Z :=
  match l with
  | [] => []
  | x :: r => x :: filter (λ y, y ≠ x) (drop_duplicates r)
  end.

(** [Series.sort_values], ascending. *)
Definition sort_values (l : list Z) : list Z := merge_sort Z.le l.

(** [Series.nunique] of the date column. *)
Definition nunique (l : list Z) : nat := length (drop_duplicates l).

(** Python's normalisation of one bound of a slice over a sequence of
    length [len]: a negative bound counts from the end, and every bound is
    clipped to the sequence. *)
Definition slice_bound (len i : Z) : Z :=
  if i <? 0 then Z.max 0 (i + len) else Z.min i len.

(** [l[start:stop]]; an omitted bound is [None]. *)
Definition py_slice {A} (l : list A) (start stop : option Z) : list A :=
  let len := Z.of_nat (length l) in
  let a := from_option (slice_bound len) 0 start in
  let b := from_option (slice_bound len) len stop in
  take (Z.to_nat (b - a)) (drop (Z.to_nat a) l).

(** [df[df['game_date'].isin(dates)]] *)
Definition isin_dates (dates : list Z) (df : DataFrame) : DataFrame :=
  filter (λ r, game_date r ∈ dates) df.

(** ** Module A: the data slicer *)

Definition insufficient_sample_message (n_games : nat) : string :=
  "樣本不足！該球員整季僅出賽 " +:+ pretty n_games +:+ " 場，需至少 30 場。".

(** [df['game_date'].drop_duplicates().sort_values().reset_index(drop=True)] *)
Definition game_dates (df : DataFrame) : list Z :=
  sort_values (drop_duplicates (game_date <$> df)).

(** [{date: idx for idx, date in enumerate(game_dates)}] *)
Definition game_index_map (dates : list Z) : gmap Z nat :=
  foldl (λ m p, <[p.2 := p.1]> m) ∅ (imap pair dates).

(** [df['game_index'] = df['game_date'].map(game_index_map)] *)
Definition set_game_index (m : gmap Z nat) (r : EventRecord) : EventRecord :=
  {| game_date := game_date r;
     events := events r;
     description := description r;
     launch_speed := launch_speed r;
     launch_angle := launch_angle r;
     hit_distance_sc := hit_distance_sc r;
     release_spin_rate := release_spin_rate r;
     game_index := m !! game_date r |}.

(** The frame after the [game_index] column was added. *)
Definition with_game_index (dates : list Z) (df : DataFrame) : DataFrame :=
  set_game_index (game_index_map dates) <$> df.

Definition early_dates (dates : list Z) : list Z :=
  py_slice dates (Some 0) (Some 10).

(** [mid_center], [mid_start] and [mid_end], from [n_games]. *)
Definition mid_center (n_games : Z) : Z := n_games `div` 2.
Definition mid_start (n_games : Z) : Z := mid_center n_games - 5.
Definition mid_end (n_games : Z) : Z := mid_center n_games + 5.

Definition mid_dates (dates : list Z) : list Z :=
  let n_games := Z.of_nat (length dates) in
  py_slice dates (Some (mid_start n_games)) (Some (mid_end n_games)).

Definition late_dates (dates : list Z) : list Z :=
  py_slice dates (Some (-10)) None.

Definition slice_by_game_index (df : DataFrame)
  : result (DataFrame * DataFrame * DataFrame) :=
  let dates := game_dates df in
  let n_games := length dates in
  if decide (n_games < 30)%nat then
    Raise (ValueError (insufficient_sample_message n_games))
  else
    let df := with_game_index dates df in
    let early_df := isin_dates (early_dates dates) df in
    let mid_df := isin_dates (mid_dates dates) df in
    let late_df := isin_dates (late_dates dates) df in
    Ok (early_df, mid_df, late_df).

(** ** Values of a metrics dictionary *)

(** What [aggregate_metrics] stores under a key: [None], a Python [int],
    a float (an exact rational here) or a [str]. *)
Inductive value :=
  | VNone
  | VInt (n : Z)
  | VFloat (q : Q)
  | VStr (s : string).

Definition as_number (v : value) : option Q :=
  match v with
  | VInt n => Some (inject_Z n)
  | VFloat q => Some q
  | _ => None
  end.

Definition is_none (v : value) : bool :=
  match v with VNone => true | _ => false end.

(** [d[k]]: a missing key raises [KeyError]. *)
Definition getitem (d : gmap string value) (k : string) : result value :=
  match d !! k with
  | Some v => Ok v
  | None => Raise (KeyError k)
  end.

(** [d.get(k)]: a missing key gives [None]. *)
Definition dict_get (d : gmap string value) (k : string) : value :=
  default VNone (d !! k).

(** [a + b] on dictionary values. *)
Definition py_add (a b : value) : result value :=
  match a, b with
  | VInt x, VInt y => Ok (VInt (x + y))
  | VInt x, VFloat y => Ok (VFloat (inject_Z x + y))
  | VFloat x, VInt y => Ok (VFloat (x + inject_Z y))
  | VFloat x, VFloat y => Ok (VFloat (x + y))
  | VStr x, VStr y => Ok (VStr (x +:+ y))
  | _, _ => Raise TypeError
  end.

(** [a - b] on dictionary values; only its numeric value is used. *)
Definition py_sub (a b : value) : result Q :=
  match as_number a, as_number b with
  | Some x, Some y => Ok (x - y)%Q
  | _, _ => Raise TypeError
  end.

(** ** Arithmetic on measurements *)

Global Instance Qlt_decision (x y : Q) : Decision (x < y)%Q := Z_lt_dec _ _.
Global Instance Qle_decision (x y : Q) : Decision (x <= y)%Q := Z_le_dec _ _.
Global Instance Qeq_decision (x y : Q) : Decision (x == y)%Q := Z.eq_dec _ _.

(** Rounding to the nearest integer, ties to the even one. *)
Definition round_half_even (x : Q) : Z :=
  let f := Qfloor x in
  match (x - inject_Z f ?= 1 # 2)%Q with
  | Lt => f
  | Gt => f + 1
  | Eq => if Z.even f then f else f + 1
  end.

(** [round(x, ndigits)] *)
Definition py_round (x : Q) (ndigits : nat) : Q :=
  let scale := inject_Z (10 ^ Z.of_nat ndigits) in
  Qred (inject_Z (round_half_even (x * scale)) / scale).

(** Python's [a / b] on two [int]s. *)
Definition int_truediv (a b : Z) : result Q :=
  if decide (b = 0) then Raise ZeroDivisionError
  else Ok (inject_Z a / inject_Z b)%Q.

(** numpy's [a / b] where one operand is a numpy scalar. *)
Definition np_true_divide (a b : Q) : result Q :=
  if decide (b == 0)%Q then Raise FloatingPointError
  else Ok (a / b)%Q.

(** [Series.dropna] *)
Definition dropna {A} (col : list (option A)) : list A := omap id col.

Definition Qsum (l : list Q) : Q := foldr Qplus 0%Q l.

(** [Series.mean] *)
Definition mean (l : list Q) : result Q :=
  np_true_divide (Qsum l) (inject_Z (Z.of_nat (length l))).

(** [Series.max] *)
Definition series_max (l : list Q) : result Q :=
  match l with
  | [] => Raise FloatingPointError
  | x :: r => Ok (foldl (λ m y, if decide (m < y)%Q then y else m) x r)
  end.

(** [(events == e).sum()] *)
Definition count_eq (e : string) (evs : list string) : Z :=
  Z.of_nat (length (filter (λ x, x = e) evs)).

(** [events.isin(names).sum()] *)
Definition count_isin (names : list string) (evs : list string) : Z :=
  Z.of_nat (length (filter (λ x, x ∈ names) evs)).

(** [df[df['description'].isin(names)]] *)
Definition description_isin (names : list string) (df : DataFrame) : DataFrame :=
  filter (λ r, description r ∈ (Some <$> names)) df.

(** ** Module B: the metric aggregator *)

Definition swing_descriptions : list string :=
  ["swinging_strike"; "swinging_strike_blocked"; "foul"; "foul_tip";
   "hit_into_play"].

Definition whiff_descriptions : list string :=
  ["swinging_strike"; "swinging_strike_blocked"].

Definition hit_events : list string :=
  ["single"; "double"; "triple"; "home_run"].

Definition at_bat_events : list string :=
  ["single"; "double"; "triple"; "home_run"; "field_out"; "strikeout";
   "double_play"; "grounded_into_double_play"; "force_out";
   "fielders_choice"; "fielders_choice_out"].

(** The items of [woba_weights], in insertion order. *)
Definition woba_weights : list (string * Q) :=
  [("walk", 690 # 1000); ("hit_by_pitch", 722 # 1000);
   ("single", 883 # 1000); ("double", 1244 # 1000);
   ("triple", 1569 # 1000); ("home_run", 2015 # 1000)]%Q.

(** The local variables of [aggregate_metrics] that count events, as
    functions of the series [events = df['events'].dropna()]. *)
Definition home_runs (evs : list string) : Z := count_eq "home_run" evs.
Definition walks (evs : list string) : Z := count_eq "walk" evs.
Definition strikeouts (evs : list string) : Z := count_eq "strikeout" evs.
Definition hits (evs : list string) : Z := count_isin hit_events evs.
Definition at_bats (evs : list string) : Z := count_isin at_bat_events evs.
Definition sac_flies (evs : list string) : Z := count_eq "sac_fly" evs.

Definition babip_numerator (evs : list string) : Z :=
  hits evs - home_runs evs.
Definition babip_denominator (evs : list string) : Z :=
  at_bats evs - strikeouts evs - home_runs evs + sac_flies evs.

(** The loop over [woba_weights.items()], from [woba_numerator = 0]. *)
Definition woba_numerator (evs : list string) : Q :=
  foldl (λ acc p, acc + inject_Z (count_eq p.1 evs) * p.2)%Q 0%Q woba_weights.
Definition woba_denominator (evs : list string) : Z :=
  at_bats evs + walks evs + count_eq "hit_by_pitch" evs + sac_flies evs.

(** [round(col.mean(), 2) if len(col) > 0 else None] *)
Definition rounded_mean (col : list Q) : result value :=
  if decide (0 < length col)%nat then
    m <- mean col;; Ok (VFloat (py_round m 2))
  else Ok VNone.

(** [round(col.max(), 2) if len(col) > 0 else None] *)
Definition rounded_max (col : list Q) : result value :=
  if decide (0 < length col)%nat then
    m <- series_max col;; Ok (VFloat (py_round m 2))
  else Ok VNone.

(** [round(count / total * 100, 2) if total > 0 else None], where [count]
    is a numpy integer. *)
Definition percent_rate (count total : Z) : result value :=
  if decide (0 < total) then
    q <- np_true_divide (inject_Z count) (inject_Z total);;
    Ok (VFloat (py_round (q * 100) 2))
  else Ok VNone.

(** [round(len(swinging_strikes) / len(total_swings) * 100, 2)
     if len(total_swings) > 0 else None], on Python integers. *)
Definition whiff_percent (swinging_strikes total_swings : Z) : result value :=
  if decide (0 < total_swings) then
    q <- int_truediv swinging_strikes total_swings;;
    Ok (VFloat (py_round (q * 100) 2))
  else Ok VNone.

(** [round(numerator / denominator, 3) if denominator > 0 else None] *)
Definition rounded_ratio (numerator : Q) (denominator : Z) : result value :=
  if decide (0 < denominator) then
    q <- np_true_divide numerator (inject_Z denominator);;
    Ok (VFloat (py_round q 3))
  else Ok VNone.

Definition aggregate_metrics (segment_df : DataFrame) (segment_name : string)
  : result (gmap string value) :=
  let df := segment_df in
  let metrics : gmap string value :=
    <["plate_appearances" :=
        VInt (Z.of_nat (length (filter (λ r, is_Some (events r)) df)))]>
    (<["games" := VInt (Z.of_nat (nunique (game_date <$> df)))]>
    (<["segment" := VStr segment_name]> ∅)) in
  (* 1. launch_speed mean *)
  let valid_launch := dropna (launch_speed <$> df) in
  v <- rounded_mean valid_launch;;
  let metrics := <["avg_launch_speed" := v]> metrics in
  (* 2. launch_angle mean *)
  let valid_angle := dropna (launch_angle <$> df) in
  v <- rounded_mean valid_angle;;
  let metrics := <["avg_launch_angle" := v]> metrics in
  (* 3. hard hit rate *)
  let hard_hits := Z.of_nat (length (filter (λ x, 95 < x)%Q valid_launch)) in
  v <- percent_rate hard_hits (Z.of_nat (length valid_launch));;
  let metrics := <["hard_hit_rate" := v]> metrics in
  (* 4. whiff rate *)
  let total_swings := description_isin swing_descriptions df in
  let swinging_strikes := description_isin whiff_descriptions df in
  v <- whiff_percent (Z.of_nat (length swinging_strikes))
         (Z.of_nat (length total_swings));;
  let metrics := <["whiff_rate" := v]> metrics in
  (* 5. longest hit *)
  let valid_distance := dropna (hit_distance_sc <$> df) in
  v <- rounded_max valid_distance;;
  let metrics := <["max_hit_distance" := v]> metrics in
  (* 6. pitcher spin *)
  let valid_spin := dropna (release_spin_rate <$> df) in
  v <- rounded_mean valid_spin;;
  let metrics := <["avg_pitcher_spin" := v]> metrics in
  (* 7-9. event counts *)
  let evs := dropna (events <$> df) in
  let total_events := Z.of_nat (length evs) in
  let metrics := <["home_runs" := VInt (home_runs evs)]> metrics in
  let metrics := <["walks" := VInt (walks evs)]> metrics in
  v <- percent_rate (walks evs) total_events;;
  let metrics := <["bb_rate" := v]> metrics in
  let metrics := <["strikeouts" := VInt (strikeouts evs)]> metrics in
  v <- percent_rate (strikeouts evs) total_events;;
  let metrics := <["k_rate" := v]> metrics in
  (* 10. BABIP *)
  v <- rounded_ratio (inject_Z (babip_numerator evs)) (babip_denominator evs);;
  let metrics := <["babip" := v]> metrics in
  (* wOBA *)
  v <- rounded_ratio (woba_numerator evs) (woba_denominator evs);;
  let metrics := <["woba" := v]> metrics in
  Ok metrics.

(** ** The trend classifier *)

Definition _calculate_trend (early_val mid_val late_val : value)
  : result string :=
  if is_none early_val || is_none late_val then Ok "insufficient_data"
  else
    diff <- py_sub late_val early_val;;
    if decide (Qabs diff < 1)%Q then Ok "stable"
    else if decide (0 < diff)%Q then Ok "increasing"
    else Ok "decreasing".

(** ** The diagnosis assembler *)

(** The dictionary [build_diagnosis_json] returns.  [analysis_segments] has
    the keys [early], [mid] and [late]. *)
Record DiagnosisResult := {
  player_name : string;
  analysis_segments : gmap string (gmap string value);
  summary : gmap string value
}.

Definition build_diagnosis_json (name : string)
    (early_metrics mid_metrics late_metrics : gmap string value)
  : result DiagnosisResult :=
  let segments : gmap string (gmap string value) :=
    <["late" := late_metrics]>
    (<["mid" := mid_metrics]> (<["early" := early_metrics]> ∅)) in
  e <- getitem early_metrics "games";;
  m <- getitem mid_metrics "games";;
  em <- py_add e m;;
  l <- getitem late_metrics "games";;
  total <- py_add em l;;
  launch_speed_trend <-
    _calculate_trend (dict_get early_metrics "avg_launch_speed")
                     (dict_get mid_metrics "avg_launch_speed")
                     (dict_get late_metrics "avg_launch_speed");;
  hard_hit_trend <-
    _calculate_trend (dict_get early_metrics "hard_hit_rate")
                     (dict_get mid_metrics "hard_hit_rate")
                     (dict_get late_metrics "hard_hit_rate");;
  k_rate_trend <-
    _calculate_trend (dict_get early_metrics "k_rate")
                     (dict_get mid_metrics "k_rate")
                     (dict_get late_metrics "k_rate");;
  Ok {| player_name := name;
        analysis_segments := segments;
        summary :=
          <["k_rate_trend" := VStr k_rate_trend]>
          (<["hard_hit_trend" := VStr hard_hit_trend]>
          (<["launch_speed_trend" := VStr launch_speed_trend]>
          (<["total_games_analyzed" := total]> ∅))) |}.

(** Steps 3 to 5 of [get_full_analysis], on the frame that steps 1 and 2
    obtained from the provider. *)
Definition get_full_analysis (name : string) (df : DataFrame)
  : result DiagnosisResult :=
  s <- slice_by_game_index df;;
  let '(early_df, mid_df, late_df) := s in
  early_metrics <- aggregate_metrics early_df "Early (前10場)";;
  mid_metrics <- aggregate_metrics mid_df "Mid (季中10場)";;
  late_metrics <- aggregate_metrics late_df "Late (最後10場)";;
  build_diagnosis_json name early_metrics mid_metrics late_metrics.

(** * Collaborators of the engine *)

(** ** Fetching ([data_engine.fetch_statcast_data]) *)

(** The frame [statcast_batter] answers with: its rows, each with its
    [game_type], and whether the column [game_type] is there at all. *)
Record ProviderFrame := {
  has_game_type : bool;
  provider_rows : list (option string * EventRecord)
}.

(** [fetch_statcast_data], from the frame that [statcast_batter] returned. *)
Definition fetch_statcast_data (df : ProviderFrame)
    (start_date end_date : string) : result ProviderFrame :=
  if decide (provider_rows df = []) then
    Raise (ValueError ("該期間沒有資料: " +:+ start_date +:+ " ~ " +:+ end_date))
  else if has_game_type df then
    let df := {| has_game_type := true;
                 provider_rows :=
                   filter (λ r, r.1 = Some "R") (provider_rows df) |} in
    if decide (provider_rows df = []) then
      Raise (ValueError ("該期間沒有例行賽資料: " +:+ start_date +:+ " ~ " +:+ end_date))
    else Ok df
  else Ok df.

(** ** Game data ([data_fetcher.get_game_data]) *)

(** A pitch of the frame of [statcast]: the columns [get_game_data] reads,
    and [pitch_number] for the columns it carries along. *)
Record GamePitch := {
  home_team : string;
  away_team : string;
  game_pk : Z;
  pitch_number : nat
}.

Global Instance GamePitch_eq_dec : EqDecision GamePitch.
Proof. solve_decision. Defined.

(** [get_game_data], from what [statcast] did: it raised, it returned
    [None], or it returned a frame.  Every exception becomes [None]. *)
Definition get_game_data (fetched : result (option (list GamePitch)))
    (team_code : string) : option (list GamePitch) :=
  match fetched with
  | Raise _ => None
  | Ok None => None
  | Ok (Some df) =>
      if decide (df = []) then None
      else
        let team_game_df :=
          filter (λ r, home_team r = team_code ∨ away_team r = team_code) df in
        if decide (team_game_df = []) then None
        else
          let unique_games := drop_duplicates (game_pk <$> team_game_df) in
          match unique_games with
          | pk :: _ => Some (filter (λ r, game_pk r = pk) team_game_df)
          | [] => Some team_game_df
          end
  end.

(** ** The narrative prompt ([narrative_logic]) *)

(** The dictionary [translations] of [_translate_trend]. *)
Definition translations : gmap string string :=
  <["insufficient_data" := "數據不足"]>
  (<["stable" := "穩定 ➡️"]>
  (<["decreasing" := "下降 📉"]>
  (<["increasing" := "上升 📈"]> ∅))).

(** [translations.get(trend, trend)] *)
Definition _translate_trend (trend : string) : string :=
  default trend (translations !! trend).

(** Python's [not s] on an optional string: [None] and the empty string. *)
Definition str_falsy (s : option string) : bool :=
  match s with
  | None => true
  | Some s => bool_decide (s = "")
  end.

Definition placeholder_key : string := "your_gemini_api_key_here".

(** [configure_gemini]: [getenv] is [os.getenv('OPENAI_API_KEY')]; the
    result is the key given to [genai.configure]. *)
Definition configure_gemini (getenv : option string) (api_key : option string)
  : result string :=
  let api_key := if str_falsy api_key then getenv else api_key in
  match api_key with
  | Some key =>
      if str_falsy (Some key) || bool_decide (key = placeholder_key) then
        Raise (ValueError ("請提供 Gemini API Key！
可以在 Sidebar 輸入，或在 .env 檔案中設定 OPENAI_API_KEY"))
      else Ok key
  | None =>
      Raise (ValueError ("請提供 Gemini API Key！
可以在 Sidebar 輸入，或在 .env 檔案中設定 OPENAI_API_KEY"))
  end.

(** Python's truth value of a dictionary value. *)
Definition truthy (v : value) : bool :=
  match v with
  | VNone => false
  | VInt n => negb (n =? 0)
  | VFloat q => negb (Qeq_bool q 0)
  | VStr s => negb (bool_decide (s = ""))
  end.

(** The local variable [speed_change] of [generate_quick_summary];
    [format_1f] renders a number with one decimal ([{diff:.1f}]). *)
Definition speed_change (format_1f : Q → string)
    (early late : gmap string value) : result string :=
  if truthy (dict_get early "avg_launch_speed")
     && truthy (dict_get late "avg_launch_speed") then
    l <- getitem late "avg_launch_speed";;
    e <- getitem early "avg_launch_speed";;
    diff <- py_sub l e;;
    if decide (1 < diff)%Q then
      Ok ("初速提升 " +:+ format_1f diff +:+ " mph ⬆️")
    else if decide (diff < -1)%Q then
      Ok ("初速下降 " +:+ format_1f (Qabs diff) +:+ " mph ⬇️")
    else Ok "初速維持穩定 ➡️"
  else Ok "".

(** The local variable [fatigue_indicator] of [generate_quick_summary]. *)
Definition fatigue_indicator (early late : gmap string value)
  : result string :=
  if truthy (dict_get early "hard_hit_rate")
     && truthy (dict_get late "hard_hit_rate") then
    l <- getitem late "hard_hit_rate";;
    e <- getitem early "hard_hit_rate";;
    hh_diff <- py_sub l e;;
    if decide (hh_diff < -5)%Q then Ok "⚠️ 可能有季末疲勞跡象"
    else if decide (5 < hh_diff)%Q then Ok "💪 季末表現提升"
    else Ok ""
  else Ok "".

(** ** The player analysis ([narrative_engine]) *)

(** The events that [generate_player_analysis] leaves out of the at-bats. *)
Definition non_at_bat_events : list string :=
  ["walk"; "hit_by_pitch"; "sac_fly"; "sac_bunt"; "catcher_interf"].

(** The local variable [recent_avg] of [generate_player_analysis], from the
    history frame ([None] when there is none), which has an [events]
    column. *)
Definition recent_avg (history_df : option DataFrame) : result value :=
  match history_df with
  | Some df =>
      if decide (df = []) then Ok (VStr "N/A")
      else
        let hist_events := dropna (events <$> df) in
        let hits :=
          count_isin ["single"; "double"; "triple"; "home_run"] hist_events in
        let at_bats :=
          Z.of_nat (length (filter (λ e, e ∉ non_at_bat_events) hist_events)) in
        if decide (0 < at_bats) then
          q <- np_true_divide (inject_Z hits) (inject_Z at_bats);;
          Ok (VFloat (py_round q 3))
        else Ok (VInt 0)
  | None => Ok (VStr "N/A")
  end.

(** ** The dashboard ([app.py]) *)

(** [get_api_key]: [session_api_key] is the entry [api_key] of the session
    state, if any. *)
Definition get_api_key (getenv : option string)
    (session_api_key : option string) : string :=
  match getenv with
  | Some env_key =>
      if negb (str_falsy (Some env_key))
         && negb (bool_decide (env_key = placeholder_key))
      then env_key
      else default "" session_api_key
  | None => default "" session_api_key
  end.

(** [max(a, b)] and [min(a, b)] on two numbers: the first argument wins a
    tie. *)
Definition py_max (a b : Q) : Q := if decide (a < b)%Q then b else a.
Definition py_min (a b : Q) : Q := if decide (b < a)%Q then b else a.

(** The numeric reading of a value, which the comparisons of [max] and the
    division need: a string makes them fail. *)
Definition number_of (v : value) : result Q :=
  match as_number v with
  | Some q => Ok q
  | None => Raise TypeError
  end.

Fixpoint mapM {A B} (f : A → result B) (l : list A) : result (list B) :=
  match l with
  | [] => Ok []
  | x :: l => y <- f x;; ys <- mapM f l;; Ok (y :: ys)
  end.

(** The builtin [max] on a list of numbers: the first of the largest. *)
Definition py_max_list (l : list Q) : result Q :=
  match l with
  | [] => Raise (ValueError "max() arg is an empty sequence")
  | x :: l => Ok (foldl py_max x l)
  end.

(** Python's [a / b] on two numbers. *)
Definition py_truediv (a b : Q) : result Q :=
  if decide (b == 0)%Q then Raise ZeroDivisionError else Ok (a / b)%Q.

(** [normalize] of [create_radar_chart]. *)
Definition normalize (val : value) (min_val max_val : Z) : result Q :=
  if is_none val then Ok 50%Q
  else
    d <- py_sub val (VInt min_val);;
    q <- py_truediv d (inject_Z (max_val - min_val));;
    Ok (py_min 100 (py_max 0 (q * 100))).

(** [get_scores] of [create_radar_chart]. *)
Definition get_scores (segment : gmap string value) : result (list Q) :=
  s1 <- normalize (dict_get segment "avg_launch_speed") 80 100;;
  s2 <- normalize (dict_get segment "hard_hit_rate") 20 60;;
  s3 <- normalize (dict_get segment "bb_rate") 0 15;;
  s4 <- normalize (dict_get segment "k_rate") 10 35;;
  s5 <- normalize (dict_get segment "max_hit_distance") 350 450;;
  Ok [s1; s2; s3; (100 - s4)%Q; s5].

(** The radius list of one trace of the radar chart:
    [scores = get_scores(segment_data); scores.append(scores[0])], where
    [scores] is the five-element list that [get_scores] builds. *)
Definition radar_trace (segment : gmap string value) : result (list Q) :=
  scores <- get_scores segment;;
  Ok (scores ++ take 1 scores).

(** [segment.get(metric, 0) or 0] *)
Definition get_or_zero (segment : gmap string value) (metric : string)
  : value :=
  let v := default (VInt 0) (segment !! metric) in
  if truthy v then v else VInt 0.

(** The list [values] of [create_bar_chart] and [create_trend_chart]. *)
Definition chart_values (early mid late : gmap string value)
    (metric : string) : list value :=
  [get_or_zero early metric; get_or_zero mid metric; get_or_zero late metric].

(** The list [normalized] of [create_trend_chart], for one metric. *)
Definition normalized (early mid late : gmap string value) (metric : string)
  : result (list Q) :=
  values <- mapM number_of (chart_values early mid late metric);;
  m <- py_max_list values;;
  let max_val := if decide (0 < m)%Q then m else 1%Q in
  mapM (λ v, q <- py_truediv v max_val;; Ok (q * 100)%Q) values.

(** ** Sample frames *)

(** A row with only a date and a plate-appearance result. *)
Definition event_row (date : Z) (ev : option string) : EventRecord :=
  {| game_date := date; events := ev; description := None;
     launch_speed := None; launch_angle := None; hit_distance_sc := None;
     release_spin_rate := None; game_index := None |}.

(** One pitch per game, on the days [0 .. n-1], latest game first. *)
Definition season (n : nat) : DataFrame :=
  (λ d, event_row (Z.of_nat d) None) <$> reverse (seq 0 n).

(** ** The entries of a metrics dictionary *)

(** A rate or average that is defined only under [guard]. *)
Definition float_or_none (guard : Prop) `{Decision guard} (q : Q) : value :=
  if decide guard then VFloat q else VNone.

(** What [aggregate_metrics] stores under each key, for the frame [df] and
    the segment name [name]. *)
Record metrics_entries (df : DataFrame) (name : string)
    (m : gmap string value) : Prop := {
  entry_segment : m !! "segment" = Some (VStr name);
  entry_games :
    m !! "games" = Some (VInt (Z.of_nat (nunique (game_date <$> df))));
  entry_plate_appearances :
    m !! "plate_appearances"
    = Some (VInt (Z.of_nat (length (filter (λ r, is_Some (events r)) df))));
  entry_avg_launch_speed :
    let col := dropna (launch_speed <$> df) in
    m !! "avg_launch_speed"
    = Some (float_or_none (0 < length col)%nat
              (py_round (Qsum col / inject_Z (Z.of_nat (length col))) 2));
  entry_avg_launch_angle :
    let col := dropna (launch_angle <$> df) in
    m !! "avg_launch_angle"
    = Some (float_or_none (0 < length col)%nat
              (py_round (Qsum col / inject_Z (Z.of_nat (length col))) 2));
  entry_hard_hit_rate :
    let col := dropna (launch_speed <$> df) in
    let hard_hits := Z.of_nat (length (filter (λ x, 95 < x)%Q col)) in
    m !! "hard_hit_rate"
    = Some (float_or_none (0 < Z.of_nat (length col))
              (py_round (inject_Z hard_hits
                         / inject_Z (Z.of_nat (length col)) * 100) 2));
  entry_whiff_rate :
    let swings := Z.of_nat (length (description_isin swing_descriptions df)) in
    let misses := Z.of_nat (length (description_isin whiff_descriptions df)) in
    m !! "whiff_rate"
    = Some (float_or_none (0 < swings)
              (py_round (inject_Z misses / inject_Z swings * 100) 2));
  entry_max_hit_distance :
    m !! "max_hit_distance"
    = Some (match dropna (hit_distance_sc <$> df) with
            | [] => VNone
            | x :: col =>
                VFloat (py_round
                          (foldl (λ m y, if decide (m < y)%Q then y else m)
                             x col) 2)
            end);
  entry_avg_pitcher_spin :
    let col := dropna (release_spin_rate <$> df) in
    m !! "avg_pitcher_spin"
    = Some (float_or_none (0 < length col)%nat
              (py_round (Qsum col / inject_Z (Z.of_nat (length col))) 2));
  entry_home_runs :
    m !! "home_runs" = Some (VInt (home_runs (dropna (events <$> df))));
  entry_walks :
    m !! "walks" = Some (VInt (walks (dropna (events <$> df))));
  entry_strikeouts :
    m !! "strikeouts" = Some (VInt (strikeouts (dropna (events <$> df))));
  entry_bb_rate :
    let evs := dropna (events <$> df) in
    m !! "bb_rate"
    = Some (float_or_none (0 < Z.of_nat (length evs))
              (py_round (inject_Z (walks evs)
                         / inject_Z (Z.of_nat (length evs)) * 100) 2));
  entry_k_rate :
    let evs := dropna (events <$> df) in
    m !! "k_rate"
    = Some (float_or_none (0 < Z.of_nat (length evs))
              (py_round (inject_Z (strikeouts evs)
                         / inject_Z (Z.of_nat (length evs)) * 100) 2));
  entry_babip :
    let evs := dropna (events <$> df) in
    m !! "babip"
    = Some (float_or_none (0 < babip_denominator evs)
              (py_round (inject_Z (babip_numerator evs)
                         / inject_Z (babip_denominator evs)) 3));
  entry_woba :
    let evs := dropna (events <$> df) in
    m !! "woba"
    = Some (float_or_none (0 < woba_denominator evs)
              (py_round (woba_numerator evs
                         / inject_Z (woba_denominator evs)) 3))
}.

(** A metrics dictionary with a game count and an average launch speed. *)
Definition sample_metrics (games : Z) (speed : Q) : gmap string value :=
  <["avg_launch_speed" := VFloat speed]> (<["games" := VInt games]> ∅).

(** ** SegmentMetrics and DiagnosisResult, in the words of the specification *)

(** The three metrics whose trend the assembler reports, each with the key
    of its label in the summary. *)
Definition tracked_metrics : list (string * string) :=
  [("avg_launch_speed", "launch_speed_trend");
   ("hard_hit_rate", "hard_hit_trend");
   ("k_rate", "k_rate_trend")].

(** A numeric value or null. *)
Definition number_or_none (v : value) : Prop :=
  v = VNone ∨ is_Some (as_number v).

(** A SegmentMetrics record: [games] is an integer count and each tracked
    metric is a numeric value or null. *)
Definition SegmentMetrics (m : gmap string value) : Prop :=
  (∃ g, m !! "games" = Some (VInt g))
  ∧ ∀ k, k ∈ tracked_metrics.*1 → number_or_none (dict_get m k).

(** [diagnosis['analysis_segments'][key]]: a missing segment raises
    [KeyError]. *)
Definition segment (d : DiagnosisResult) (key : string)
  : result (gmap string value) :=
  match analysis_segments d !! key with
  | Some metrics => Ok metrics
  | None => Raise (KeyError key)
  end.

(** ** Chronological positions, in the words of the specification *)

(** The number of distinct game dates of [df] that are earlier than [d]:
    the index of [d] among the distinct dates in chronological order. *)
Definition dates_before (df : DataFrame) (d : Z) : nat :=
  nunique (filter (λ x, x < d) (game_date <$> df)).

(** The number of distinct game dates of [df] that are later than [d]. *)
Definition dates_after (df : DataFrame) (d : Z) : nat :=
  nunique (filter (λ x, d < x) (game_date <$> df)).

(** The row [r] of the input frame [df] as a window holds it: every column
    of the input as it was, and in [game_index] the position of the row's
    date among the distinct dates of [df] in chronological order. *)
Definition indexed (df : DataFrame) (r : EventRecord) : EventRecord :=
  {| game_date := game_date r;
     events := events r;
     description := description r;
     launch_speed := launch_speed r;
     launch_angle := launch_angle r;
     hit_distance_sc := hit_distance_sc r;
     release_spin_rate := release_spin_rate r;
     game_index := Some (dates_before df (game_date r)) |}.

(** * The engine on binary64 numbers and on frames with any columns *)

Module Binary64.

(** ** binary64 arithmetic *)

(** A float64 of numpy, which is also a Python [float]: NaN, the two
    infinities, the two zeros, and [(-1)^s * m * 2^e]. *)
Definition float : Type := spec_float.
Definition prec : Z := 53.
Definition emax : Z := 1024.

(** The float nearest to an integer (ties to even): the conversion of a
    Python [int] or a numpy integer that meets a float. *)
Definition of_int (n : Z) : float := binary_normalize prec emax n 0 false.

Definition add : float → float → float := SFadd prec emax.
Definition sub : float → float → float := SFsub prec emax.
Definition mul : float → float → float := SFmul prec emax.
Definition div : float → float → float := SFdiv prec emax.
Definition abs : float → float := SFabs.
Definition ltb : float → float → bool := SFltb.
Definition leb : float → float → bool := SFleb.
Definition eqb : float → float → bool := SFeqb.

Definition isnan (x : float) : bool :=
  match x with S754_nan => true | _ => false end.

(** The rational that a finite float denotes. *)
Definition to_Q (x : float) : Q :=
  match x with
  | S754_finite s m e => inject_Z (cond_Zopp s (Z.pos m)) * 2 ^ e
  | _ => 0
  end%Q.

(** The floor of the binary logarithm of a positive rational. *)
Definition ilog2 (q : Q) : Z :=
  let k := Z.log2 (Qnum q) - Z.log2 (Z.pos (Qden q)) in
  if decide (2 ^ k <= q)%Q then k else k - 1.

(** The float nearest to a rational (ties to even). *)
Definition of_Q (q : Q) : float :=
  if decide (q == 0)%Q then S754_zero false
  else
    let e := Z.max (ilog2 (Qabs q) - 52) (-1074) in
    let m := round_half_even (Qabs q / 2 ^ e) in
    binary_normalize prec emax (if decide (q < 0)%Q then - m else m) e false.

(** The float that a decimal literal denotes: [literal 703 2] is [7.03]. *)
Definition literal (digits : Z) (decimals : nat) : float :=
  of_Q (inject_Z digits / inject_Z (10 ^ Z.of_nat decimals)).

(** [numpy.rint]: the nearest integer, ties to even; the sign of a zero
    result is that of the argument. *)
Definition rint (x : float) : float :=
  match x with
  | S754_finite s _ _ =>
      let n := round_half_even (to_Q x) in
      if n =? 0 then S754_zero s else of_int n
  | _ => x
  end.

(** [round(x, decimals)] on a numpy float64, which is [numpy.round]:
    multiply by [10 ** decimals], [rint], divide. *)
Definition np_round (x : float) (decimals : nat) : float :=
  let scale := of_int (10 ^ Z.of_nat decimals) in
  div (rint (mul x scale)) scale.

(** [round(x, ndigits)] on a Python [float]: the float nearest to the
    decimal that is nearest to [x]. *)
Definition py_round (x : float) (ndigits : nat) : float :=
  match x with
  | S754_finite s _ _ =>
      let scale := inject_Z (10 ^ Z.of_nat ndigits) in
      let k := round_half_even (to_Q x * scale) in
      if k =? 0 then S754_zero s else of_Q (inject_Z k / scale)
  | _ => x
  end.

(** Python's [a / b] on two [int]s. *)
Definition int_truediv (a b : Z) : result float :=
  if decide (b = 0) then Raise ZeroDivisionError
  else Ok (of_Q (inject_Z a / inject_Z b)).

(** ** Frames *)

(** One row of a Statcast frame.  A float column holds NaN where the value
    is missing; an object column holds [None]. *)
Record Row := {
  game_date : Z;
  events : option string;
  description : option string;
  launch_speed : float;
  launch_angle : float;
  hit_distance_sc : float;
  release_spin_rate : float
}.

(** A frame: the names of its columns and its rows.  The field of a row
    under a column that the frame does not have is never read. *)
Record Frame := {
  columns : list string;
  rows : list Row
}.

(** [df[name]]: a column that the frame does not have raises [KeyError]. *)
Definition column {A} (df : Frame) (name : string) (field : Row → A)
  : result (list A) :=
  if decide (name ∈ columns df) then Ok (field <$> rows df)
  else Raise (KeyError name).

(** [Series.dropna] on a float column. *)
Definition dropna_float (col : list float) : list float :=
  filter (λ x, isnan x = false) col.

(** ** Module B: the metric aggregator *)

(** The columns [aggregate_metrics] reads, in the order of their first
    use. *)
Definition statcast_columns : list string :=
  ["game_date"; "events"; "launch_speed"; "launch_angle"; "description";
   "hit_distance_sc"; "release_spin_rate"].

(** [Series.mean]: the sum of the column divided by its length.  pandas
    leaves the sum to numpy, whose order of additions depends on the
    length and the build; it is the parameter [series_sum]. *)
Definition mean (series_sum : list float → float) (col : list float)
  : float :=
  div (series_sum col) (of_int (Z.of_nat (length col))).

(** One order of additions: left to right, from zero. *)
Definition sequential_sum (col : list float) : float :=
  foldl add (S754_zero false) col.

(** [Series.max] of a column without NaN. *)
Definition series_max (col : list float) : float :=
  match col with
  | [] => S754_nan
  | x :: r => foldl (λ m y, if ltb m y then y else m) x r
  end.

Inductive value :=
  | VNone
  | VInt (n : Z)
  | VFloat (x : float)
  | VStr (s : string).

(** [round(col.mean(), 2) if len(col) > 0 else None] *)
Definition rounded_mean (series_sum : list float → float)
    (col : list float) : value :=
  if decide (0 < length col)%nat then
    VFloat (np_round (mean series_sum col) 2)
  else VNone.

(** [round(col.max(), 2) if len(col) > 0 else None] *)
Definition rounded_max (col : list float) : value :=
  if decide (0 < length col)%nat then VFloat (np_round (series_max col) 2)
  else VNone.

(** [round(count / total * 100, 2) if total > 0 else None], where [count]
    is a numpy integer. *)
Definition percent_rate (count total : Z) : value :=
  if decide (0 < total) then
    VFloat (np_round (mul (div (of_int count) (of_int total)) (of_int 100))
              2)
  else VNone.

(** [round(len(swinging_strikes) / len(total_swings) * 100, 2)
     if len(total_swings) > 0 else None], on Python integers. *)
Definition whiff_percent (swinging_strikes total_swings : Z) : result value :=
  if decide (0 < total_swings) then
    q <- int_truediv swinging_strikes total_swings;;
    Ok (VFloat (py_round (mul q (of_int 100)) 2))
  else Ok VNone.

(** [round(numerator / denominator, 3) if denominator > 0 else None], on
    numpy numbers. *)
Definition rounded_ratio (numerator : float) (denominator : Z) : value :=
  if decide (0 < denominator) then
    VFloat (np_round (div numerator (of_int denominator)) 3)
  else VNone.

(** The items of [woba_weights], in insertion order. *)
Definition woba_weights : list (string * float) :=
  [("walk", literal 690 3); ("hit_by_pitch", literal 722 3);
   ("single", literal 883 3); ("double", literal 1244 3);
   ("triple", literal 1569 3); ("home_run", literal 2015 3)].

(** The loop over [woba_weights.items()], from [woba_numerator = 0]. *)
Definition woba_numerator (evs : list string) : float :=
  foldl (λ acc p, add acc (mul (of_int (count_eq p.1 evs)) p.2))
    (of_int 0) woba_weights.

Definition aggregate_metrics (series_sum : list float → float)
    (segment_df : Frame) (segment_name : string)
  : result (gmap string value) :=
  let df := segment_df in
  dates <- column df "game_date" game_date;;
  notna <- column df "events" events;;
  let metrics : gmap string value :=
    <["plate_appearances" :=
        VInt (Z.of_nat (length (filter is_Some notna)))]>
    (<["games" := VInt (Z.of_nat (nunique dates))]>
    (<["segment" := VStr segment_name]> ∅)) in
  (* 1. launch_speed mean *)
  col <- column df "launch_speed" launch_speed;;
  let valid_launch := dropna_float col in
  let metrics :=
    <["avg_launch_speed" := rounded_mean series_sum valid_launch]> metrics in
  (* 2. launch_angle mean *)
  col <- column df "launch_angle" launch_angle;;
  let valid_angle := dropna_float col in
  let metrics :=
    <["avg_launch_angle" := rounded_mean series_sum valid_angle]> metrics in
  (* 3. hard hit rate *)
  let hard_hits :=
    Z.of_nat (length (filter (λ x, ltb (of_int 95) x = true) valid_launch)) in
  let metrics :=
    <["hard_hit_rate" :=
        percent_rate hard_hits (Z.of_nat (length valid_launch))]> metrics in
  (* 4. whiff rate *)
  col <- column df "description" description;;
  let total_swings := filter (λ d, d ∈ Some <$> swing_descriptions) col in
  col <- column df "description" description;;
  let swinging_strikes :=
    filter (λ d, d ∈ Some <$> whiff_descriptions) col in
  v <- whiff_percent (Z.of_nat (length swinging_strikes))
         (Z.of_nat (length total_swings));;
  let metrics := <["whiff_rate" := v]> metrics in
  (* 5. longest hit *)
  col <- column df "hit_distance_sc" hit_distance_sc;;
  let valid_distance := dropna_float col in
  let metrics :=
    <["max_hit_distance" := rounded_max valid_distance]> metrics in
  (* 6. pitcher spin *)
  col <- column df "release_spin_rate" release_spin_rate;;
  let valid_spin := dropna_float col in
  let metrics :=
    <["avg_pitcher_spin" := rounded_mean series_sum valid_spin]> metrics in
  (* 7-9. event counts *)
  col <- column df "events" events;;
  let evs := dropna col in
  let total_events := Z.of_nat (length evs) in
  let metrics := <["home_runs" := VInt (home_runs evs)]> metrics in
  let metrics := <["walks" := VInt (walks evs)]> metrics in
  let metrics :=
    <["bb_rate" := percent_rate (walks evs) total_events]> metrics in
  let metrics := <["strikeouts" := VInt (strikeouts evs)]> metrics in
  let metrics :=
    <["k_rate" := percent_rate (strikeouts evs) total_events]> metrics in
  (* 10. BABIP *)
  let metrics :=
    <["babip" := rounded_ratio (of_int (babip_numerator evs))
                   (babip_denominator evs)]> metrics in
  (* wOBA *)
  let metrics :=
    <["woba" := rounded_ratio (woba_numerator evs) (woba_denominator evs)]>
      metrics in
  Ok metrics.

(** ** The trend classifier *)

(** [_calculate_trend] on the values of a tracked metric, each a float64
    or [None]. *)
Definition _calculate_trend (early_val mid_val late_val : option float)
  : string :=
  match early_val, late_val with
  | Some early_val, Some late_val =>
      let diff := sub late_val early_val in
      if ltb (abs diff) (of_int 1) then "stable"
      else if ltb (of_int 0) diff then "increasing"
      else "decreasing"
  | _, _ => "insufficient_data"
  end.

(** ** The quick summary *)

(** Python's truth value of [d.get(k)] for a float64 or [None]: [None] and
    the two zeros are false, NaN is true. *)
Definition truthy (v : option float) : bool :=
  match v with
  | None => false
  | Some x => negb (eqb x (of_int 0))
  end.

(** The local variable [speed_change] of [generate_quick_summary], from
    the [avg_launch_speed] of the Early and of the Late record;
    [format_1f] renders a float with one decimal ([{diff:.1f}]). *)
Definition speed_change (format_1f : float → string)
    (early_speed late_speed : option float) : string :=
  match early_speed, late_speed with
  | Some e, Some l =>
      if truthy early_speed && truthy late_speed then
        let diff := sub l e in
        if ltb (of_int 1) diff then
          "初速提升 " +:+ format_1f diff +:+ " mph ⬆️"
        else if ltb diff (of_int (-1)) then
          "初速下降 " +:+ format_1f (abs diff) +:+ " mph ⬇️"
        else "初速維持穩定 ➡️"
      else ""
  | _, _ => ""
  end.

(** ** Sample frames, and the entries of a metrics dictionary *)

(** A row with only a date and a plate-appearance result: every
    measurement is missing. *)
Definition event_row (date : Z) (ev : option string) : Row :=
  {| game_date := date; events := ev; description := None;
     launch_speed := S754_nan; launch_angle := S754_nan;
     hit_distance_sc := S754_nan; release_spin_rate := S754_nan |}.

(** A frame that has the columns the aggregator reads. *)
Definition statcast_frame (rows : list Row) : Frame :=
  {| columns := statcast_columns; rows := rows |}.

(** What [aggregate_metrics] stores under each key, for a frame [df] that
    has the columns. *)
Record metrics_entries (series_sum : list float → float) (df : Frame)
    (name : string) (m : gmap string value) : Prop := {
  entry_segment : m !! "segment" = Some (VStr name);
  entry_games :
    m !! "games"
    = Some (VInt (Z.of_nat (nunique (game_date <$> rows df))));
  entry_plate_appearances :
    m !! "plate_appearances"
    = Some (VInt (Z.of_nat (length (filter is_Some (events <$> rows df)))));
  entry_avg_launch_speed :
    m !! "avg_launch_speed"
    = Some (rounded_mean series_sum
              (dropna_float (launch_speed <$> rows df)));
  entry_avg_launch_angle :
    m !! "avg_launch_angle"
    = Some (rounded_mean series_sum
              (dropna_float (launch_angle <$> rows df)));
  entry_hard_hit_rate :
    let valid_launch := dropna_float (launch_speed <$> rows df) in
    m !! "hard_hit_rate"
    = Some (percent_rate
              (Z.of_nat (length (filter (λ x, ltb (of_int 95) x = true)
                                   valid_launch)))
              (Z.of_nat (length valid_launch)));
  entry_whiff_rate :
    let swings :=
      Z.of_nat (length (filter (λ d, d ∈ Some <$> swing_descriptions)
                          (description <$> rows df))) in
    let misses :=
      Z.of_nat (length (filter (λ d, d ∈ Some <$> whiff_descriptions)
                          (description <$> rows df))) in
    m !! "whiff_rate"
    = Some (if decide (0 < swings) then
              VFloat (py_round (mul (of_Q (inject_Z misses / inject_Z swings))
                                  (of_int 100)) 2)
            else VNone);
  entry_max_hit_distance :
    m !! "max_hit_distance"
    = Some (rounded_max (dropna_float (hit_distance_sc <$> rows df)));
  entry_avg_pitcher_spin :
    m !! "avg_pitcher_spin"
    = Some (rounded_mean series_sum
              (dropna_float (release_spin_rate <$> rows df)));
  entry_home_runs :
    m !! "home_runs"
    = Some (VInt (home_runs (dropna (events <$> rows df))));
  entry_walks :
    m !! "walks" = Some (VInt (walks (dropna (events <$> rows df))));
  entry_strikeouts :
    m !! "strikeouts"
    = Some (VInt (strikeouts (dropna (events <$> rows df))));
  entry_bb_rate :
    let evs := dropna (events <$> rows df) in
    m !! "bb_rate"
    = Some (percent_rate (walks evs) (Z.of_nat (length evs)));
  entry_k_rate :
    let evs := dropna (events <$> rows df) in
    m !! "k_rate"
    = Some (percent_rate (strikeouts evs) (Z.of_nat (length evs)));
  entry_babip :
    let evs := dropna (events <$> rows df) in
    m !! "babip"
    = Some (rounded_ratio (of_int (babip_numerator evs))
              (babip_denominator evs));
  entry_woba :
    let evs := dropna (events <$> rows df) in
    m !! "woba"
    = Some (rounded_ratio (woba_numerator evs) (woba_denominator evs))
}.

End Binary64.

(** * Properties of the slicer *)

(** ** Lists: filters, duplicates, sorted positions *)

Section list_facts.
Context {A : Type}.
Implicit Types (l : list A).

Lemma filter_all (P : A → Prop) `{∀ x, Decision (P x)} l :
  Forall P l → filter P l = l.
Proof.
  induction 1 as [|x l Hx _ IH]; [done|].
  by rewrite filter_cons_True, IH.
Qed.

Lemma filter_none (P : A → Prop) `{∀ x, Decision (P x)} l :
  Forall (λ x, ¬ P x) l → filter P l = [].
Proof.
  induction 1 as [|x l Hx _ IH]; [done|].
  by rewrite filter_cons_False.
Qed.

(** Two filters agree when their predicates agree on the members. *)
Lemma filter_ext_in (P Q : A → Prop)
    `{∀ x, Decision (P x)} `{∀ x, Decision (Q x)} l :
  (∀ x, x ∈ l → P x ↔ Q x) → filter P l = filter Q l.
Proof.
  induction l as [|x l IH]; intros HPQ; [done|].
  rewrite !filter_cons.
  rewrite IH by (intros y Hy; apply HPQ; by right).
  destruct (decide (P x)) as [HP|HP], (decide (Q x)) as [HQ|HQ];
    try done; exfalso; apply (HPQ x) in HP || apply (HPQ x) in HQ;
    (done || by left).
Qed.
End list_facts.

Lemma filter_fmap {A B} (f : A → B) (P : B → Prop) `{∀ y, Decision (P y)}
    (l : list A) :
  filter P (f <$> l) = f <$> filter (λ x, P (f x)) l.
Proof.
  induction l as [|x l IH]; [done|].
  rewrite fmap_cons, !filter_cons, IH. by destruct (decide (P (f x))).
Qed.

Lemma elem_of_drop_duplicates x l : x ∈ drop_duplicates l ↔ x ∈ l.
Proof.
  induction l as [|y l IH]; simpl; [done|].
  rewrite !elem_of_cons, list_elem_of_filter, IH.
  destruct (decide (x = y)); naive_solver.
Qed.

Lemma NoDup_drop_duplicates l : NoDup (drop_duplicates l).
Proof.
  induction l as [|y l IH]; simpl; [constructor|].
  constructor; [|by apply NoDup_filter].
  rewrite list_elem_of_filter. naive_solver.
Qed.

(** Dropping duplicates commutes with selecting rows. *)
Lemma drop_duplicates_filter (P : Z → Prop) `{∀ x, Decision (P x)} l :
  drop_duplicates (filter P l) = filter P (drop_duplicates l).
Proof.
  induction l as [|y l IH]; [done|].
  rewrite filter_cons. destruct (decide (P y)) as [Hy|Hy]; simpl.
  - rewrite filter_cons_True, IH by done. f_equal.
    rewrite !list_filter_filter. apply list_filter_iff. naive_solver.
  - rewrite filter_cons_False, IH by done.
    rewrite list_filter_filter. apply list_filter_iff.
    intros x; split; [|naive_solver]. intros Hx; split; [done|congruence].
Qed.

Lemma nunique_filter (P : Z → Prop) `{∀ x, Decision (P x)} l :
  nunique (filter P l) = length (filter P (drop_duplicates l)).
Proof. unfold nunique. by rewrite drop_duplicates_filter. Qed.

Lemma StronglySorted_le_lt l :
  StronglySorted Z.le l → NoDup l → StronglySorted Z.lt l.
Proof.
  induction 1 as [|x l _ IH Hx]; intros Hnd; [constructor|].
  apply NoDup_cons in Hnd as [Hnin Hnd]. constructor; [auto|].
  rewrite Forall_forall in Hx |- *. intros y Hy.
  specialize (Hx y Hy). assert (x ≠ y) by (intros ->; done). lia.
Qed.

(** In a strictly increasing list, the entry at position [i] has exactly
    the [i] entries before it below it, and the others above it. *)
Lemma sorted_filter_lt l i d :
  StronglySorted Z.lt l → l !! i = Some d →
  filter (λ x, x < d) l = take i l.
Proof.
  intros Hs Hi. rewrite <-(take_drop_middle l i d Hi) in Hs |- *.
  apply StronglySorted_app in Hs as (Hlt & _ & Hs).
  apply StronglySorted_cons in Hs as [Hgt _].
  rewrite filter_app, filter_cons_False by lia.
  rewrite filter_all, filter_none.
  - rewrite take_app_length' by (rewrite length_take_le; [done|];
      apply lookup_lt_Some in Hi; lia).
    by rewrite app_nil_r.
  - eapply Forall_impl; [exact Hgt|]. simpl. lia.
  - apply Forall_forall. intros x Hx. apply Hlt; [done|by left].
Qed.

Lemma sorted_filter_gt l i d :
  StronglySorted Z.lt l → l !! i = Some d →
  filter (λ x, d < x) l = drop (S i) l.
Proof.
  intros Hs Hi. rewrite <-(take_drop_middle l i d Hi) in Hs |- *.
  apply StronglySorted_app in Hs as (Hlt & _ & Hs).
  apply StronglySorted_cons in Hs as [Hgt _].
  rewrite filter_app, filter_cons_False by lia.
  rewrite filter_none, filter_all; [|done|].
  - rewrite cons_middle, app_assoc, drop_app_length'; [done|].
    rewrite length_app, length_take_le; [simpl; lia|].
    apply lookup_lt_Some in Hi. lia.
  - apply Forall_forall. intros x Hx.
    assert (x < d) by (apply Hlt; [done|by left]). lia.
Qed.

(** ** The sorted distinct dates *)

Lemma elem_of_game_dates df d :
  d ∈ game_dates df ↔ ∃ r, r ∈ df ∧ game_date r = d.
Proof.
  unfold game_dates, sort_values.
  rewrite merge_sort_Permutation, elem_of_drop_duplicates, list_elem_of_fmap.
  naive_solver.
Qed.

Lemma NoDup_game_dates df : NoDup (game_dates df).
Proof.
  unfold game_dates, sort_values.
  rewrite merge_sort_Permutation. apply NoDup_drop_duplicates.
Qed.

Lemma length_game_dates df :
  length (game_dates df) = nunique (game_date <$> df).
Proof.
  unfold game_dates, sort_values, nunique.
  by rewrite merge_sort_Permutation.
Qed.

Lemma game_dates_sorted df : StronglySorted Z.lt (game_dates df).
Proof.
  apply StronglySorted_le_lt; [|apply NoDup_game_dates].
  apply (StronglySorted_merge_sort Z.le).
Qed.

Lemma game_dates_filter_length (P : Z → Prop) `{∀ x, Decision (P x)} df :
  length (filter P (game_dates df)) = nunique (filter P (game_date <$> df)).
Proof.
  rewrite nunique_filter. unfold game_dates, sort_values.
  by rewrite merge_sort_Permutation.
Qed.

(** ** The index dictionary *)

Lemma game_index_map_snoc dates d :
  game_index_map (dates ++ [d])
  = <[d := length dates]> (game_index_map dates).
Proof.
  unfold game_index_map. rewrite imap_app, foldl_app. simpl.
  by rewrite Nat.add_0_r.
Qed.

Lemma game_index_map_lookup dates d i :
  NoDup dates → game_index_map dates !! d = Some i ↔ dates !! i = Some d.
Proof.
  induction dates as [|x dates IH] using rev_ind; intros Hnd.
  - unfold game_index_map. simpl. by rewrite lookup_empty.
  - apply NoDup_app in Hnd as (Hnd & Hnin & _).
    rewrite game_index_map_snoc, lookup_insert.
    destruct (decide (x = d)) as [->|Hne].
    + split.
      * intros [= <-]. by rewrite lookup_app_r, Nat.sub_diag.
      * intros Hi. f_equal.
        destruct (decide (i < length dates)%nat) as [Hlt|Hge].
        -- rewrite lookup_app_l in Hi by done.
           apply list_elem_of_lookup_2 in Hi. exfalso.
           apply (Hnin d Hi). by left.
        -- apply lookup_lt_Some in Hi. rewrite length_app in Hi.
           simpl in Hi. lia.
    + rewrite IH by done. split.
      * intros Hi. by apply lookup_app_l_Some.
      * intros Hi. apply lookup_app_Some in Hi as [Hi|[_ Hi]]; [done|].
        destruct (i - length dates)%nat; simplify_eq/=.
Qed.

(** ** Slices of the date list *)

Lemma py_slice_nonneg {A} (l : list A) (a b : Z) :
  0 ≤ a → 0 ≤ b →
  py_slice l (Some a) (Some b)
  = take (Z.to_nat b - Z.to_nat a) (drop (Z.to_nat a) l).
Proof.
  intros Ha Hb. unfold py_slice, slice_bound. simpl.
  rewrite (proj2 (Z.ltb_ge a 0)), (proj2 (Z.ltb_ge b 0)) by lia.
  destruct (decide (a ≤ Z.of_nat (length l))) as [Hal|Hal].
  - rewrite (Z.min_l a) by lia.
    destruct (decide (b ≤ Z.of_nat (length l))) as [Hbl|Hbl].
    + rewrite Z.min_l by lia. f_equal. lia.
    + rewrite Z.min_r by lia.
      rewrite !take_ge; [done| |]; rewrite length_drop; lia.
  - rewrite (Z.min_r a) by lia. rewrite Nat2Z.id, drop_all.
    rewrite (drop_ge l (Z.to_nat a)) by lia. by rewrite !take_nil.
Qed.

Lemma early_dates_take dates : early_dates dates = take 10 dates.
Proof. unfold early_dates. by rewrite py_slice_nonneg. Qed.

Lemma late_dates_drop dates :
  (10 ≤ length dates)%nat →
  late_dates dates = drop (length dates - 10) dates.
Proof.
  intros Hn. unfold late_dates, py_slice, slice_bound. simpl.
  replace (Z.to_nat (Z.max 0 (-10 + Z.of_nat (length dates))))
    with (length dates - 10)%nat by lia.
  apply take_ge. rewrite length_drop. lia.
Qed.

Lemma mid_start_bounds (n : Z) :
  10 ≤ n → 0 ≤ mid_start n ∧ mid_end n = mid_start n + 10 ∧ mid_end n ≤ n.
Proof.
  intros Hn. unfold mid_start, mid_end, mid_center.
  pose proof (Z.div_mod n 2 ltac:(lia)).
  pose proof (Z.mod_pos_bound n 2 ltac:(lia)). lia.
Qed.

Lemma mid_dates_take_drop dates :
  (10 ≤ length dates)%nat →
  mid_dates dates
  = take 10 (drop (Z.to_nat (mid_start (Z.of_nat (length dates)))) dates).
Proof.
  intros Hn.
  destruct (mid_start_bounds (Z.of_nat (length dates))) as (H0 & Hend & _);
    [lia|].
  unfold mid_dates. rewrite py_slice_nonneg by lia. f_equal. lia.
Qed.

(** ** Positions of the dates of a frame *)

Lemma game_dates_lookup_before df i d :
  game_dates df !! i = Some d → dates_before df d = i.
Proof.
  intros Hi. unfold dates_before. rewrite <-game_dates_filter_length.
  rewrite (sorted_filter_lt _ i) by auto using game_dates_sorted.
  apply length_take_le. apply lookup_lt_Some in Hi. lia.
Qed.

Lemma game_dates_lookup_after df i d :
  game_dates df !! i = Some d →
  dates_after df d = (length (game_dates df) - S i)%nat.
Proof.
  intros Hi. unfold dates_after. rewrite <-game_dates_filter_length.
  rewrite (sorted_filter_gt _ i) by auto using game_dates_sorted.
  apply length_drop.
Qed.

Lemma game_dates_position df r :
  r ∈ df → game_dates df !! dates_before df (game_date r) = Some (game_date r).
Proof.
  intros Hr.
  assert (game_date r ∈ game_dates df) as Hin
    by (apply elem_of_game_dates; eauto).
  apply list_elem_of_lookup in Hin as [i Hi].
  by rewrite (game_dates_lookup_before _ _ _ Hi).
Qed.

Lemma dates_before_lt df r :
  r ∈ df → (dates_before df (game_date r) < nunique (game_date <$> df))%nat.
Proof.
  intros Hr. rewrite <-length_game_dates.
  eapply lookup_lt_Some, game_dates_position, Hr.
Qed.

Lemma dates_before_after df r :
  r ∈ df →
  (dates_before df (game_date r) + dates_after df (game_date r) + 1
   = nunique (game_date <$> df))%nat.
Proof.
  intros Hr. pose proof (dates_before_lt _ _ Hr).
  rewrite (game_dates_lookup_after _ _ _ (game_dates_position _ _ Hr)).
  rewrite length_game_dates. lia.
Qed.

(** Membership of a date of the frame in a slice of the date list, by its
    position. *)
Lemma elem_of_take_drop_position df r a k :
  r ∈ df →
  game_date r ∈ take k (drop a (game_dates df))
  ↔ (a ≤ dates_before df (game_date r) < a + k)%nat.
Proof.
  intros Hr. pose proof (game_dates_position _ _ Hr) as Hpos.
  rewrite elem_of_take. split.
  - intros (j & Hj & Hlt). rewrite lookup_drop in Hj.
    pose proof (NoDup_lookup _ _ _ _ (NoDup_game_dates df) Hj Hpos). lia.
  - intros [Hle Hlt]. exists (dates_before df (game_date r) - a)%nat.
    split; [|lia]. rewrite lookup_drop. rewrite <-Hpos. f_equal. lia.
Qed.

Lemma elem_of_early_dates df r :
  r ∈ df →
  game_date r ∈ early_dates (game_dates df)
  ↔ (dates_before df (game_date r) < 10)%nat.
Proof.
  intros Hr. rewrite early_dates_take.
  rewrite <-(drop_0 (game_dates df)) at 1.
  rewrite elem_of_take_drop_position by done. lia.
Qed.

Lemma elem_of_mid_dates df r :
  let n := Z.of_nat (nunique (game_date <$> df)) in
  10 ≤ n → r ∈ df →
  game_date r ∈ mid_dates (game_dates df)
  ↔ mid_start n ≤ Z.of_nat (dates_before df (game_date r)) < mid_end n.
Proof.
  intros n Hn Hr. subst n.
  destruct (mid_start_bounds _ Hn) as (H0 & Hend & _).
  rewrite mid_dates_take_drop by (rewrite length_game_dates; lia).
  rewrite elem_of_take_drop_position, length_game_dates by done. lia.
Qed.

Lemma elem_of_late_dates df r :
  (10 ≤ nunique (game_date <$> df))%nat → r ∈ df →
  game_date r ∈ late_dates (game_dates df)
  ↔ (dates_after df (game_date r) < 10)%nat.
Proof.
  intros Hn Hr. pose proof (dates_before_after _ _ Hr).
  rewrite late_dates_drop by (rewrite length_game_dates; lia).
  rewrite <-(take_ge (drop _ _) 10) by (rewrite length_drop; lia).
  rewrite elem_of_take_drop_position, length_game_dates by done. lia.
Qed.

(** ** The indexed frame and the three windows *)

Lemma elem_of_with_game_index dates df r :
  r ∈ with_game_index dates df
  ↔ ∃ r0, r0 ∈ df ∧ r = set_game_index (game_index_map dates) r0.
Proof. unfold with_game_index. rewrite list_elem_of_fmap. naive_solver. Qed.

(** Adding the index column changes no other column. *)
Lemma with_game_index_columns dates df r :
  r ∈ with_game_index dates df →
  ∃ r0, r0 ∈ df ∧ game_date r = game_date r0 ∧ events r = events r0
    ∧ description r = description r0 ∧ launch_speed r = launch_speed r0
    ∧ launch_angle r = launch_angle r0
    ∧ hit_distance_sc r = hit_distance_sc r0
    ∧ release_spin_rate r = release_spin_rate r0.
Proof.
  rewrite elem_of_with_game_index. intros (r0 & Hr0 & ->).
  exists r0. by repeat split.
Qed.

Lemma with_game_index_dates dates df :
  game_date <$> with_game_index dates df = game_date <$> df.
Proof.
  unfold with_game_index. rewrite <-list_fmap_compose.
  by apply list_fmap_ext.
Qed.

(** The [game_index] of a row is the chronological position of its date. *)
Lemma game_index_position df r :
  r ∈ with_game_index (game_dates df) df →
  game_index r = Some (dates_before df (game_date r)).
Proof.
  rewrite elem_of_with_game_index. intros (r0 & Hr0 & ->). simpl.
  apply game_index_map_lookup; [apply NoDup_game_dates|].
  by apply game_dates_position.
Qed.

(** The frame with its index column is the input, row by row. *)
Lemma set_game_index_indexed df r :
  r ∈ df → set_game_index (game_index_map (game_dates df)) r = indexed df r.
Proof.
  intros Hr. unfold set_game_index, indexed. f_equal.
  apply game_index_map_lookup; [apply NoDup_game_dates|].
  by apply game_dates_position.
Qed.

Lemma with_game_index_indexed df :
  with_game_index (game_dates df) df = indexed df <$> df.
Proof.
  apply list_fmap_ext. intros i r Hr.
  apply set_game_index_indexed. by eapply list_elem_of_lookup_2.
Qed.

(** A selection of rows of the indexed frame by their date is the same
    selection of rows of the input, each with its index. *)
Lemma window_of_input (P : EventRecord → Prop) `{∀ r, Decision (P r)} df :
  (∀ r, P (indexed df r) ↔ P r) →
  filter P (with_game_index (game_dates df) df) = indexed df <$> filter P df.
Proof.
  intros HP. rewrite with_game_index_indexed, filter_fmap. f_equal.
  apply filter_ext_in. intros r _. apply HP.
Qed.

Lemma isin_dates_window (P : EventRecord → Prop) `{∀ r, Decision (P r)}
    D dates df :
  (∀ r0, r0 ∈ df →
     game_date r0 ∈ D ↔ P (set_game_index (game_index_map dates) r0)) →
  isin_dates D (with_game_index dates df)
  = filter P (with_game_index dates df).
Proof.
  intros HD. unfold isin_dates. apply filter_ext_in.
  intros r (r0 & Hr0 & ->)%elem_of_with_game_index. simpl. by apply HD.
Qed.

Lemma slice_by_game_index_Ok df :
  (30 ≤ nunique (game_date <$> df))%nat →
  slice_by_game_index df
  = Ok (isin_dates (early_dates (game_dates df))
          (with_game_index (game_dates df) df),
        isin_dates (mid_dates (game_dates df))
          (with_game_index (game_dates df) df),
        isin_dates (late_dates (game_dates df))
          (with_game_index (game_dates df) df)).
Proof.
  intros Hn. unfold slice_by_game_index. rewrite length_game_dates.
  destruct (decide _); [lia|done].
Qed.

Lemma early_window df :
  isin_dates (early_dates (game_dates df)) (with_game_index (game_dates df) df)
  = filter (λ r, (dates_before df (game_date r) < 10)%nat)
      (with_game_index (game_dates df) df).
Proof.
  apply isin_dates_window. intros r0 Hr0. simpl.
  by apply elem_of_early_dates.
Qed.

Lemma mid_window df :
  let n := Z.of_nat (nunique (game_date <$> df)) in
  10 ≤ n →
  isin_dates (mid_dates (game_dates df)) (with_game_index (game_dates df) df)
  = filter (λ r, mid_start n ≤ Z.of_nat (dates_before df (game_date r))
                 < mid_end n)
      (with_game_index (game_dates df) df).
Proof.
  intros n Hn. apply isin_dates_window.
  intros r0 Hr0. simpl. by apply elem_of_mid_dates.
Qed.

Lemma late_window df :
  (10 ≤ nunique (game_date <$> df))%nat →
  isin_dates (late_dates (game_dates df)) (with_game_index (game_dates df) df)
  = filter (λ r, (dates_after df (game_date r) < 10)%nat)
      (with_game_index (game_dates df) df).
Proof.
  intros Hn. apply isin_dates_window.
  intros r0 Hr0. simpl. by apply elem_of_late_dates.
Qed.

(** A row of a window of the indexed frame comes from a row of the frame
    with the same date. *)
Lemma elem_of_window_date (P : EventRecord → Prop) `{∀ r, Decision (P r)}
    df r :
  r ∈ filter P (with_game_index (game_dates df) df) →
  P r ∧ ∃ r0, r0 ∈ df ∧ game_date r0 = game_date r.
Proof.
  rewrite list_elem_of_filter. intros [HP Hr]. split; [done|].
  apply elem_of_with_game_index in Hr as (r0 & Hr0 & ->). eauto.
Qed.

(** ** The number of games of a window *)

Lemma nunique_isin_dates D dates df :
  NoDup D → (∀ d, d ∈ D → d ∈ game_dates df) →
  nunique (game_date <$> isin_dates D (with_game_index dates df)) = length D.
Proof.
  intros Hnd Hsub. unfold nunique. apply Permutation_length.
  apply NoDup_Permutation; [apply NoDup_drop_duplicates|done|].
  intros x. rewrite elem_of_drop_duplicates, list_elem_of_fmap. split.
  - intros (r & -> & Hr). unfold isin_dates in Hr.
    by apply list_elem_of_filter in Hr as [HD _].
  - intros Hx. destruct (proj1 (elem_of_game_dates _ _) (Hsub _ Hx))
      as (r0 & Hr0 & <-).
    exists (set_game_index (game_index_map dates) r0). split; [done|].
    apply list_elem_of_filter. split; [done|].
    apply elem_of_with_game_index. eauto.
Qed.

Lemma sublist_game_dates_NoDup D df :
  D `sublist_of` game_dates df →
  NoDup D ∧ ∀ d, d ∈ D → d ∈ game_dates df.
Proof.
  intros Hsub. split.
  - eapply sublist_NoDup; [apply NoDup_game_dates|exact Hsub].
  - intros d Hd. by eapply elem_of_sublist.
Qed.

Lemma early_window_games df :
  (10 ≤ nunique (game_date <$> df))%nat →
  nunique (game_date <$> isin_dates (early_dates (game_dates df))
                           (with_game_index (game_dates df) df)) = 10%nat.
Proof.
  intros Hn. rewrite early_dates_take.
  destruct (sublist_game_dates_NoDup (take 10 (game_dates df)) df)
    as [Hnd Hsub]; [apply sublist_take|].
  rewrite nunique_isin_dates by done.
  apply length_take_le. rewrite length_game_dates. lia.
Qed.

Lemma mid_window_games df :
  (10 ≤ nunique (game_date <$> df))%nat →
  nunique (game_date <$> isin_dates (mid_dates (game_dates df))
                           (with_game_index (game_dates df) df)) = 10%nat.
Proof.
  intros Hn. pose proof (length_game_dates df) as Hlen.
  destruct (mid_start_bounds (Z.of_nat (length (game_dates df))))
    as (H0 & Hend & Hle); [lia|].
  rewrite mid_dates_take_drop by lia.
  destruct (sublist_game_dates_NoDup
              (take 10 (drop (Z.to_nat (mid_start
                 (Z.of_nat (length (game_dates df))))) (game_dates df))) df)
    as [Hnd Hsub].
  { etrans; [apply sublist_take|apply sublist_drop]. }
  rewrite nunique_isin_dates by done.
  apply length_take_le. rewrite length_drop. lia.
Qed.

Lemma late_window_games df :
  (10 ≤ nunique (game_date <$> df))%nat →
  nunique (game_date <$> isin_dates (late_dates (game_dates df))
                           (with_game_index (game_dates df) df)) = 10%nat.
Proof.
  intros Hn. pose proof (length_game_dates df) as Hlen.
  rewrite late_dates_drop by lia.
  destruct (sublist_game_dates_NoDup
              (drop (length (game_dates df) - 10) (game_dates df)) df)
    as [Hnd Hsub]; [apply sublist_drop|].
  rewrite nunique_isin_dates by done. rewrite length_drop. lia.
Qed.

Lemma nunique_season_30 : nunique (game_date <$> season 30) = 30%nat.
Proof. by vm_compute. Qed.

(** ** The sample guard *)

(** C1: a stream with [n < 30] distinct game dates makes
    [slice_by_game_index] raise the insufficient-sample error whose message
    carries the observed count [n] and the minimum 30; with [n >= 30] it
    raises nothing and returns the three windows. *)
Theorem slice_by_game_index_sample_guard df :
  let n := nunique (game_date <$> df) in
  ((n < 30)%nat →
     slice_by_game_index df
     = Raise (ValueError ("樣本不足！該球員整季僅出賽 " +:+ pretty n
                          +:+ " 場，需至少 30 場。")))
  ∧ ((30 ≤ n)%nat → ∃ windows, slice_by_game_index df = Ok windows).
Proof.
  intros n. split; intros Hn.
  - unfold slice_by_game_index. rewrite length_game_dates. fold n.
    by destruct (decide _); [|lia].
  - rewrite slice_by_game_index_Ok by done. eauto.
Qed.

Lemma slice_by_game_index_sample_guard_witness :
  slice_by_game_index (season 29)
  = Raise (ValueError ("樣本不足！該球員整季僅出賽 " +:+ pretty 29%nat
                       +:+ " 場，需至少 30 場。"))
  ∧ ∃ windows, slice_by_game_index (season 30) = Ok windows.
Proof.
  split.
  - apply (proj1 (slice_by_game_index_sample_guard (season 29))).
    vm_compute. lia.
  - apply (proj2 (slice_by_game_index_sample_guard (season 30))).
    vm_compute. lia.
Defined.

(** ** The Early and Late windows *)

Lemma early_late_dates_disjoint df d :
  (20 ≤ nunique (game_date <$> df))%nat →
  d ∈ early_dates (game_dates df) → d ∈ late_dates (game_dates df) → False.
Proof.
  intros Hn He Hl.
  assert (d ∈ game_dates df) as (r & Hr & <-)%elem_of_game_dates.
  { rewrite early_dates_take in He. eapply elem_of_sublist; [exact He|].
    apply sublist_take. }
  apply elem_of_early_dates in He; [|done].
  apply elem_of_late_dates in Hl; [|lia|done].
  pose proof (dates_before_after _ _ Hr). lia.
Qed.

(** C2: with [n >= 30] distinct game dates, the Early window is exactly the
    rows of the input whose date is among the 10 chronologically earliest
    distinct dates (fewer than 10 distinct dates are earlier), the Late
    window exactly those whose date is among the 10 latest (fewer than 10
    distinct dates are later), each row with its index column, and no
    Early row shares its date with a Late row; no date is among the 10
    earliest and among the 10 latest whenever [n >= 20]. *)
Theorem early_late_windows df :
  let n := nunique (game_date <$> df) in
  ((30 ≤ n)%nat →
   ∃ early mid late,
     slice_by_game_index df = Ok (early, mid, late)
     ∧ early = indexed df
               <$> filter (λ r, (dates_before df (game_date r) < 10)%nat) df
     ∧ late = indexed df
              <$> filter (λ r, (dates_after df (game_date r) < 10)%nat) df
     ∧ ∀ r1 r2, r1 ∈ early → r2 ∈ late → game_date r1 ≠ game_date r2)
  ∧ ((20 ≤ n)%nat →
     (∀ d, ¬ (d ∈ early_dates (game_dates df)
              ∧ d ∈ late_dates (game_dates df)))
     ∧ ∀ r, r ∈ df →
         ¬ ((dates_before df (game_date r) < 10)%nat
            ∧ (dates_after df (game_date r) < 10)%nat)).
Proof.
  intros n. split.
  - intros Hn. eexists _, _, _.
    split; [by apply slice_by_game_index_Ok|].
    split.
    { rewrite early_window.
      by apply window_of_input. }
    split.
    { rewrite late_window by lia.
      by apply window_of_input. }
    intros r1 r2 Hr1 Hr2 Heq. unfold isin_dates in Hr1, Hr2.
    apply list_elem_of_filter in Hr1 as [He _].
    apply list_elem_of_filter in Hr2 as [Hl _]. rewrite <-Heq in Hl.
    eapply (early_late_dates_disjoint df); [|exact He|exact Hl]. lia.
  - intros Hn. split.
    + intros d [He Hl]. by eapply early_late_dates_disjoint.
    + intros r Hr [Hb Ha]. pose proof (dates_before_after _ _ Hr).
      fold n in H. lia.
Qed.

Lemma early_late_windows_witness :
  (∃ early mid late,
     slice_by_game_index (season 30) = Ok (early, mid, late)
     ∧ early = indexed (season 30)
               <$> filter (λ r, (dates_before (season 30) (game_date r)
                                 < 10)%nat) (season 30)
     ∧ late = indexed (season 30)
              <$> filter (λ r, (dates_after (season 30) (game_date r)
                                < 10)%nat) (season 30)
     ∧ ∀ r1 r2, r1 ∈ early → r2 ∈ late → game_date r1 ≠ game_date r2)
  ∧ ∀ d, ¬ (d ∈ early_dates (game_dates (season 20))
            ∧ d ∈ late_dates (game_dates (season 20))).
Proof.
  split.
  - apply (proj1 (early_late_windows (season 30))). vm_compute. lia.
  - apply (proj2 (early_late_windows (season 20))). vm_compute. lia.
Defined.

(** ** The Mid window *)

(** C3: with [n >= 30] distinct game dates, the Mid window is exactly the
    rows of the input whose date has its sorted-date index in
    [[n//2 - 5, n//2 + 5)], each row with that index in its [game_index]
    column.  For [n = 30] the range is [[10, 20)], for [n = 31] it is
    [[10, 20)] and for [n = 45] it is [[17, 27)]. *)
Theorem mid_window_indices df :
  let n := Z.of_nat (nunique (game_date <$> df)) in
  (30 ≤ n →
   ∃ early mid late,
     slice_by_game_index df = Ok (early, mid, late)
     ∧ mid = indexed df
             <$> filter (λ r, n `div` 2 - 5
                              ≤ Z.of_nat (dates_before df (game_date r))
                              < n `div` 2 + 5) df
     ∧ (∀ r, r ∈ mid →
          game_index r = Some (dates_before df (game_date r))
          ∧ n `div` 2 - 5 ≤ Z.of_nat (dates_before df (game_date r))
            < n `div` 2 + 5)
     ∧ (n = 30 →
        mid = indexed df
              <$> filter (λ r, (10 ≤ dates_before df (game_date r)
                                ≤ 19)%nat) df))
  ∧ (mid_start 30, mid_end 30) = (10, 20)
  ∧ (mid_start 31, mid_end 31) = (10, 20)
  ∧ (mid_start 45, mid_end 45) = (17, 27).
Proof.
  intros n. split; [|done]. intros Hn.
  assert (isin_dates (mid_dates (game_dates df))
            (with_game_index (game_dates df) df)
          = indexed df
            <$> filter (λ r, n `div` 2 - 5
                             ≤ Z.of_nat (dates_before df (game_date r))
                             < n `div` 2 + 5) df) as Hmid.
  { rewrite mid_window by (fold n; lia). by apply window_of_input. }
  eexists _, _, _.
  split; [apply slice_by_game_index_Ok; lia|].
  split; [exact Hmid|]. split.
  { intros r Hr. pose proof Hr as [_ Hrow]%list_elem_of_filter.
    rewrite Hmid in Hr.
    apply list_elem_of_fmap in Hr as (r0 & -> & [Hb _]%list_elem_of_filter).
    split; [by apply game_index_position|done]. }
  intros Hn30. rewrite Hmid. f_equal. apply filter_ext_in.
  intros r _. rewrite Hn30. change (30 `div` 2) with 15. lia.
Qed.

Lemma mid_window_indices_witness :
  ∃ early mid late,
    slice_by_game_index (season 45) = Ok (early, mid, late)
    ∧ mid = indexed (season 45)
            <$> filter
                  (λ r, Z.of_nat (nunique (game_date <$> season 45)) `div` 2
                        - 5
                        ≤ Z.of_nat (dates_before (season 45) (game_date r))
                        < Z.of_nat (nunique (game_date <$> season 45)) `div` 2
                          + 5)
                  (season 45).
Proof.
  destruct (proj1 (mid_window_indices (season 45)))
    as (early & mid & late & Hs & Hm & _); [vm_compute; discriminate|].
  exists early, mid, late. split; [exact Hs|exact Hm].
Defined.

(** ** The windows of a season of exactly 30 games *)

(** With 30 distinct dates, the Late window is the rows at the sorted-date
    indices 20 to 29. *)
Lemma late_window_at_30 df :
  nunique (game_date <$> df) = 30%nat →
  isin_dates (late_dates (game_dates df)) (with_game_index (game_dates df) df)
  = filter (λ r, (20 ≤ dates_before df (game_date r) ≤ 29)%nat)
      (with_game_index (game_dates df) df).
Proof.
  intros Hn. apply isin_dates_window. intros r0 Hr0. simpl.
  rewrite elem_of_late_dates by (done || lia).
  pose proof (dates_before_after _ _ Hr0). lia.
Qed.

Lemma mid_window_at_30 df :
  nunique (game_date <$> df) = 30%nat →
  isin_dates (mid_dates (game_dates df)) (with_game_index (game_dates df) df)
  = filter (λ r, (10 ≤ dates_before df (game_date r) ≤ 19)%nat)
      (with_game_index (game_dates df) df).
Proof.
  intros Hn. apply isin_dates_window. intros r0 Hr0. simpl.
  rewrite elem_of_mid_dates by (done || lia). rewrite Hn.
  unfold mid_start, mid_end, mid_center.
  change (Z.of_nat 30 `div` 2) with 15. lia.
Qed.

(** C7, as stated, fails: in a season of exactly 30 game dates the Mid
    window has no row at sorted-date index 20, and shares no date with the
    Late window. *)
Lemma mid_window_at_30_stops_at_19 :
  nunique (game_date <$> season 30) = 30%nat
  ∧ ¬ (∃ early mid late,
         slice_by_game_index (season 30) = Ok (early, mid, late)
         ∧ ((∃ r, r ∈ mid ∧ game_index r = Some 20%nat)
            ∨ (∃ r1 r2, r1 ∈ mid ∧ r2 ∈ late
                        ∧ game_date r1 = game_date r2))).
Proof.
  split; [apply nunique_season_30|].
  pose proof nunique_season_30 as Hn. revert Hn.
  generalize (season 30). intros df Hn.
  intros (early & mid & late & Hs & Hshare).
  rewrite slice_by_game_index_Ok in Hs by lia.
  injection Hs as <- <- <-.
  rewrite mid_window_at_30, late_window_at_30 in Hshare by done.
  destruct Hshare as [(r & Hr & Hidx)|(r1 & r2 & Hr1 & Hr2 & Heq)].
  - apply list_elem_of_filter in Hr as [Hb Hr].
    rewrite (game_index_position _ _ Hr) in Hidx. simplify_eq. lia.
  - apply list_elem_of_filter in Hr1 as [Hb1 _].
    apply list_elem_of_filter in Hr2 as [Hb2 _]. rewrite Heq in Hb1. lia.
Qed.

(** C7, amended: with exactly 30 distinct game dates, Early is the rows of
    the input at the sorted-date indices 0 to 9, Mid those at 10 to 19 and
    Late those at 20 to 29, each row with its index in [game_index], and no
    two windows share a date. *)
Theorem windows_at_30 df :
  let index := λ r, dates_before df (game_date r) in
  nunique (game_date <$> df) = 30%nat →
  ∃ early mid late,
    slice_by_game_index df = Ok (early, mid, late)
    ∧ early = indexed df <$> filter (λ r, (index r ≤ 9)%nat) df
    ∧ mid = indexed df <$> filter (λ r, (10 ≤ index r ≤ 19)%nat) df
    ∧ late = indexed df <$> filter (λ r, (20 ≤ index r ≤ 29)%nat) df
    ∧ (∀ r, r ∈ early ++ mid ++ late → game_index r = Some (index r))
    ∧ (∀ r1 r2, r1 ∈ early → r2 ∈ mid → game_date r1 ≠ game_date r2)
    ∧ (∀ r1 r2, r1 ∈ mid → r2 ∈ late → game_date r1 ≠ game_date r2)
    ∧ (∀ r1 r2, r1 ∈ early → r2 ∈ late → game_date r1 ≠ game_date r2).
Proof.
  intros index Hn. subst index. cbv beta.
  pose proof (early_window df) as He.
  pose proof (mid_window_at_30 df Hn) as Hm.
  pose proof (late_window_at_30 df Hn) as Hl.
  eexists _, _, _. split; [apply slice_by_game_index_Ok; lia|].
  split.
  { rewrite He.
    rewrite window_of_input by done.
    f_equal. apply filter_ext_in. intros r _. lia. }
  split.
  { rewrite Hm.
    by apply window_of_input. }
  split.
  { rewrite Hl.
    by apply window_of_input. }
  split.
  { intros r Hr. apply game_index_position.
    unfold isin_dates in Hr. rewrite !elem_of_app in Hr.
    destruct Hr as [Hr|[Hr|Hr]];
      by apply list_elem_of_filter in Hr as [_ Hr]. }
  rewrite He, Hm, Hl.
  repeat split; intros r1 r2 [H1 _]%list_elem_of_filter
    [H2 _]%list_elem_of_filter Heq; rewrite Heq in H1; lia.
Qed.

Lemma windows_at_30_witness :
  ∃ early mid late,
    slice_by_game_index (season 30) = Ok (early, mid, late)
    ∧ mid = indexed (season 30)
            <$> filter (λ r, (10 ≤ dates_before (season 30) (game_date r)
                              ≤ 19)%nat) (season 30)
    ∧ (∀ r1 r2, r1 ∈ mid → r2 ∈ late → game_date r1 ≠ game_date r2).
Proof.
  destruct (windows_at_30 (season 30))
    as (early & mid & late & Hs & _ & Hm & _ & _ & _ & Hml & _);
    [by vm_compute|].
  exists early, mid, late. split; [exact Hs|]. split; [exact Hm|exact Hml].
Defined.

(** * Properties of the aggregator *)

(** ** The guarded divisions *)

Lemma np_true_divide_pos a (b : Z) :
  0 < b → np_true_divide a (inject_Z b) = Ok (a / inject_Z b)%Q.
Proof.
  intros Hb. unfold np_true_divide.
  destruct (decide _) as [H0|_]; [|done].
  unfold Qeq in H0. simpl in H0. lia.
Qed.

Lemma int_truediv_pos a b :
  0 < b → int_truediv a b = Ok (inject_Z a / inject_Z b)%Q.
Proof. intros Hb. unfold int_truediv. destruct (decide _); [lia|done]. Qed.

Lemma rounded_mean_Ok col :
  rounded_mean col
  = Ok (float_or_none (0 < length col)%nat
          (py_round (Qsum col / inject_Z (Z.of_nat (length col))) 2)).
Proof.
  unfold rounded_mean, float_or_none, mean.
  destruct (decide _) as [Hlen|_]; [|done].
  by rewrite np_true_divide_pos by lia.
Qed.

Lemma rounded_max_Ok col :
  rounded_max col
  = Ok (match col with
        | [] => VNone
        | x :: col =>
            VFloat (py_round
                      (foldl (λ m y, if decide (m < y)%Q then y else m)
                         x col) 2)
        end).
Proof.
  unfold rounded_max. destruct col as [|x col]; [done|].
  destruct (decide _) as [_|Hlen]; [done|]. simpl in Hlen. lia.
Qed.

Lemma percent_rate_Ok count total :
  percent_rate count total
  = Ok (float_or_none (0 < total)
          (py_round (inject_Z count / inject_Z total * 100) 2)).
Proof.
  unfold percent_rate, float_or_none.
  destruct (decide _) as [Hlen|_]; [|done].
  by rewrite np_true_divide_pos by lia.
Qed.

Lemma whiff_percent_Ok misses swings :
  whiff_percent misses swings
  = Ok (float_or_none (0 < swings)
          (py_round (inject_Z misses / inject_Z swings * 100) 2)).
Proof.
  unfold whiff_percent, float_or_none.
  destruct (decide _) as [Hlen|_]; [|done].
  by rewrite int_truediv_pos by lia.
Qed.

Lemma rounded_ratio_Ok numerator denominator :
  rounded_ratio numerator denominator
  = Ok (float_or_none (0 < denominator)
          (py_round (numerator / inject_Z denominator) 3)).
Proof.
  unfold rounded_ratio, float_or_none.
  destruct (decide _) as [Hlen|_]; [|done].
  by rewrite np_true_divide_pos by lia.
Qed.

(** ** The aggregator returns, and what it returns *)

Lemma aggregate_metrics_Ok df name :
  ∃ m, aggregate_metrics df name = Ok m ∧ metrics_entries df name m.
Proof.
  unfold aggregate_metrics.
  rewrite !rounded_mean_Ok, !percent_rate_Ok, whiff_percent_Ok,
    rounded_max_Ok, !rounded_ratio_Ok.
  simpl. eexists. split; [reflexivity|].
  split; intros; repeat (rewrite lookup_insert_ne by done);
    by rewrite lookup_insert_eq.
Qed.

(** * Properties of the trend classifier *)

Lemma calculate_trend_numbers early mid late e l :
  as_number early = Some e → as_number late = Some l →
  _calculate_trend early mid late
  = Ok (if decide (Qabs (l - e) < 1)%Q then "stable"
        else if decide (0 < l - e)%Q then "increasing" else "decreasing").
Proof.
  intros He Hl. unfold _calculate_trend, py_sub. rewrite He, Hl.
  destruct early, late; simplify_eq/=; by repeat case_decide.
Qed.

(** * Properties of the metrics *)

(** ** Counting events *)

Lemma count_eq_cons e x evs :
  count_eq e (x :: evs) = (if decide (x = e) then 1 else 0) + count_eq e evs.
Proof.
  unfold count_eq. rewrite filter_cons.
  destruct (decide (x = e)); simpl; lia.
Qed.

Lemma count_isin_cons names x evs :
  count_isin names (x :: evs)
  = (if decide (x ∈ names) then 1 else 0) + count_isin names evs.
Proof.
  unfold count_isin. rewrite filter_cons.
  destruct (decide (x ∈ names)); simpl; lia.
Qed.

Lemma count_eq_none e evs : Forall (λ x, x ≠ e) evs → count_eq e evs = 0.
Proof. intros H. unfold count_eq. by rewrite filter_none. Qed.

Lemma count_isin_none names evs :
  Forall (λ x, x ∉ names) evs → count_isin names evs = 0.
Proof. intros H. unfold count_isin. by rewrite filter_none. Qed.

Lemma count_eq_Permutation e evs1 evs2 :
  evs1 ≡ₚ evs2 → count_eq e evs1 = count_eq e evs2.
Proof. intros H. unfold count_eq. by rewrite H. Qed.

Lemma count_isin_Permutation names evs1 evs2 :
  evs1 ≡ₚ evs2 → count_isin names evs1 = count_isin names evs2.
Proof. intros H. unfold count_isin. by rewrite H. Qed.

Lemma hit_events_at_bat e : e ∈ hit_events → e ∈ at_bat_events.
Proof. unfold hit_events, at_bat_events. set_solver. Qed.

(** The counts of a window whose events are one single and, besides,
    nothing that is an at-bat or a sacrifice fly. *)
Lemma counts_of_one_single evs others :
  evs ≡ₚ "single" :: others →
  Forall (λ e, (e ∉ at_bat_events) ∧ (e ≠ "sac_fly")) others →
  hits evs = 1 ∧ at_bats evs = 1 ∧ strikeouts evs = 0
  ∧ home_runs evs = 0 ∧ sac_flies evs = 0.
Proof.
  intros Hp Ho. unfold hits, at_bats, strikeouts, home_runs, sac_flies.
  rewrite !(count_eq_Permutation _ _ _ Hp), !(count_isin_Permutation _ _ _ Hp).
  rewrite !count_eq_cons, !count_isin_cons.
  rewrite !count_eq_none, !count_isin_none.
  - repeat case_decide; try done; exfalso;
      match goal with H : _ ∉ _ |- _ => apply H end;
      unfold hit_events, at_bat_events; set_solver.
  - eapply Forall_impl; [exact Ho|]. naive_solver.
  - eapply Forall_impl; [exact Ho|]. intros e [He _] Hin.
    by apply He, hit_events_at_bat.
  - eapply Forall_impl; [exact Ho|]. naive_solver.
  - eapply Forall_impl; [exact Ho|]. intros e [He _] ->.
    apply He. unfold at_bat_events. set_solver.
  - eapply Forall_impl; [exact Ho|]. intros e [He _] ->.
    apply He. unfold at_bat_events. set_solver.
Qed.

(** * Properties of the assembler *)

Lemma bind_Ok {A B} (r : result A) (k : A → result B) b :
  bind r k = Ok b ↔ ∃ a, r = Ok a ∧ k a = Ok b.
Proof. destruct r; simpl; naive_solver. Qed.

Lemma calculate_trend_mid early mid mid' late :
  _calculate_trend early mid late = _calculate_trend early mid' late.
Proof. done. Qed.

Lemma calculate_trend_total early mid late :
  number_or_none early → number_or_none late →
  ∃ label, _calculate_trend early mid late = Ok label.
Proof.
  intros [->|[e He]] [->|[l Hl]]; try by eexists.
  - by destruct early; eexists.
  - rewrite (calculate_trend_numbers _ _ _ _ _ He Hl). by eexists.
Qed.

(** What the aggregator returns is a SegmentMetrics record. *)
Lemma metrics_entries_SegmentMetrics df name m :
  metrics_entries df name m → SegmentMetrics m.
Proof.
  intros He. split; [by rewrite (entry_games _ _ _ He); eexists|].
  intros k Hk. unfold dict_get, tracked_metrics in *. simpl in Hk.
  apply elem_of_cons in Hk as [->|Hk];
    [|apply elem_of_cons in Hk as [->|Hk];
      [|apply list_elem_of_singleton in Hk as ->]].
  - rewrite (entry_avg_launch_speed _ _ _ He). simpl.
    unfold float_or_none, number_or_none.
    destruct (decide _); [right|left]; by eauto.
  - rewrite (entry_hard_hit_rate _ _ _ He). simpl.
    unfold float_or_none, number_or_none.
    destruct (decide _); [right|left]; by eauto.
  - rewrite (entry_k_rate _ _ _ He). simpl.
    unfold float_or_none, number_or_none.
    destruct (decide _); [right|left]; by eauto.
Qed.

(** The assembler on three SegmentMetrics records. *)
Lemma build_diagnosis_json_Ok name early mid late ge gm gl t1 t2 t3 :
  early !! "games" = Some (VInt ge) →
  mid !! "games" = Some (VInt gm) →
  late !! "games" = Some (VInt gl) →
  _calculate_trend (dict_get early "avg_launch_speed")
    (dict_get mid "avg_launch_speed") (dict_get late "avg_launch_speed")
  = Ok t1 →
  _calculate_trend (dict_get early "hard_hit_rate")
    (dict_get mid "hard_hit_rate") (dict_get late "hard_hit_rate") = Ok t2 →
  _calculate_trend (dict_get early "k_rate")
    (dict_get mid "k_rate") (dict_get late "k_rate") = Ok t3 →
  build_diagnosis_json name early mid late
  = Ok {| player_name := name;
          analysis_segments :=
            <["late" := late]> (<["mid" := mid]> (<["early" := early]> ∅));
          summary :=
            <["k_rate_trend" := VStr t3]>
            (<["hard_hit_trend" := VStr t2]>
            (<["launch_speed_trend" := VStr t1]>
            (<["total_games_analyzed" := VInt (ge + gm + gl)]> ∅))) |}.
Proof.
  intros He Hm Hl H1 H2 H3. unfold build_diagnosis_json, getitem.
  rewrite He, Hm, Hl. simpl. by rewrite H1, H2, H3.
Qed.

Lemma build_diagnosis_json_Ok_total name early mid late ge gm gl :
  SegmentMetrics early → SegmentMetrics late →
  early !! "games" = Some (VInt ge) →
  mid !! "games" = Some (VInt gm) →
  late !! "games" = Some (VInt gl) →
  ∃ d, build_diagnosis_json name early mid late = Ok d
    ∧ summary d !! "total_games_analyzed" = Some (VInt (ge + gm + gl)).
Proof.
  intros [_ Hte] [_ Htl] He Hm Hl.
  assert (∀ k, k ∈ tracked_metrics.*1 →
            ∃ label, _calculate_trend (dict_get early k) (dict_get mid k)
                       (dict_get late k) = Ok label) as Ht
    by (intros k Hk; apply calculate_trend_total; auto).
  destruct (Ht "avg_launch_speed") as [t1 H1]; [set_solver|].
  destruct (Ht "hard_hit_rate") as [t2 H2]; [set_solver|].
  destruct (Ht "k_rate") as [t3 H3]; [set_solver|].
  eexists. split; [by eapply build_diagnosis_json_Ok|]. simpl.
  by simplify_map_eq.
Qed.


Lemma sample_metrics_SegmentMetrics games speed :
  SegmentMetrics (sample_metrics games speed).
Proof.
  split; [by eexists|]. intros k Hk. unfold tracked_metrics in Hk.
  simpl in Hk. unfold number_or_none.
  apply elem_of_cons in Hk as [->|Hk];
    [|apply elem_of_cons in Hk as [->|Hk];
      [|apply list_elem_of_singleton in Hk as ->]];
    [right|left|left]; by eauto.
Qed.




(** * The whole analysis *)

Lemma slice_by_game_index_Ok_inv df windows :
  slice_by_game_index df = Ok windows →
  (30 ≤ nunique (game_date <$> df))%nat.
Proof.
  unfold slice_by_game_index. rewrite length_game_dates.
  destruct (decide _); [done|lia].
Qed.

Lemma aggregate_metrics_games df name m :
  aggregate_metrics df name = Ok m →
  m !! "games" = Some (VInt (Z.of_nat (nunique (game_date <$> df))))
  ∧ SegmentMetrics m.
Proof.
  intros Hm. destruct (aggregate_metrics_Ok df name) as (m' & Hm' & He).
  rewrite Hm in Hm'. injection Hm' as <-.
  split; [apply (entry_games _ _ _ He)|].
  by eapply metrics_entries_SegmentMetrics.
Qed.

Lemma get_full_analysis_games name df :
  (30 ≤ nunique (game_date <$> df))%nat →
  ∃ d, get_full_analysis name df = Ok d
    ∧ summary d !! "total_games_analyzed" = Some (VInt 30).
Proof.
  intros Hn. unfold get_full_analysis.
  rewrite slice_by_game_index_Ok by done. simpl.
  destruct (aggregate_metrics_Ok
              (isin_dates (early_dates (game_dates df))
                 (with_game_index (game_dates df) df)) "Early (前10場)")
    as (me & Hme & Hee).
  destruct (aggregate_metrics_Ok
              (isin_dates (mid_dates (game_dates df))
                 (with_game_index (game_dates df) df)) "Mid (季中10場)")
    as (mm & Hmm & Hem).
  destruct (aggregate_metrics_Ok
              (isin_dates (late_dates (game_dates df))
                 (with_game_index (game_dates df) df)) "Late (最後10場)")
    as (ml & Hml & Hel).
  rewrite Hme, Hmm, Hml. simpl.
  pose proof (entry_games _ _ _ Hee) as Hge.
  pose proof (entry_games _ _ _ Hem) as Hgm.
  pose proof (entry_games _ _ _ Hel) as Hgl.
  rewrite early_window_games in Hge by lia.
  rewrite mid_window_games in Hgm by lia.
  rewrite late_window_games in Hgl by lia.
  destruct (build_diagnosis_json_Ok_total name me mm ml 10 10 10)
    as (d & Hd & Ht); eauto using metrics_entries_SegmentMetrics.
Qed.

(** C10: with [n >= 30] distinct game dates, each of the three windows
    holds rows of exactly 10 distinct game dates, so the [games] entry of
    each aggregated window is 10 and the analysis returns a result whose
    [total_games_analyzed] is 30; and whenever the analysis returns a
    result, its [total_games_analyzed] is 30. *)
Theorem windows_have_ten_games name df :
  ((30 ≤ nunique (game_date <$> df))%nat →
   ∃ early mid late,
     slice_by_game_index df = Ok (early, mid, late)
     ∧ nunique (game_date <$> early) = 10%nat
     ∧ nunique (game_date <$> mid) = 10%nat
     ∧ nunique (game_date <$> late) = 10%nat
     ∧ (∀ window label, window ∈ [early; mid; late] →
          ∃ m, aggregate_metrics window label = Ok m
               ∧ m !! "games" = Some (VInt 10))
     ∧ ∃ d, get_full_analysis name df = Ok d
            ∧ summary d !! "total_games_analyzed" = Some (VInt 30))
  ∧ (∀ d, get_full_analysis name df = Ok d →
          summary d !! "total_games_analyzed" = Some (VInt 30)).
Proof.
  split.
  - intros Hn. eexists _, _, _.
    split; [by apply slice_by_game_index_Ok|].
    pose proof (early_window_games df ltac:(lia)) as He.
    pose proof (mid_window_games df ltac:(lia)) as Hm.
    pose proof (late_window_games df ltac:(lia)) as Hl.
    split; [done|]. split; [done|]. split; [done|].
    split; [|by apply get_full_analysis_games].
    intros window label Hw.
    destruct (aggregate_metrics_Ok window label) as (m & Hm' & Hent).
    exists m. split; [done|]. rewrite (entry_games _ _ _ Hent).
    apply elem_of_cons in Hw as [->|Hw];
      [|apply elem_of_cons in Hw as [->|Hw];
        [|apply list_elem_of_singleton in Hw as ->]];
      by rewrite ?He, ?Hm, ?Hl.
  - intros d Hd.
    assert (30 ≤ nunique (game_date <$> df))%nat as Hn.
    { unfold get_full_analysis in Hd.
      apply bind_Ok in Hd as (w & Hw & _).
      by eapply slice_by_game_index_Ok_inv. }
    destruct (get_full_analysis_games name df Hn) as (d' & Hd' & Ht).
    rewrite Hd in Hd'. by injection Hd' as <-.
Qed.

Lemma windows_have_ten_games_witness :
  ∃ d, get_full_analysis "Shohei Ohtani" (season 30) = Ok d
    ∧ summary d !! "total_games_analyzed" = Some (VInt 30).
Proof.
  destruct (proj1 (windows_have_ten_games "Shohei Ohtani" (season 30)))
    as (early & mid & late & _ & _ & _ & _ & _ & d & Hd & Ht);
    [vm_compute; lia|].
  exists d. split; [exact Hd|exact Ht].
Defined.

(** * Further properties of the slicer *)

Lemma slice_by_game_index_windows df early mid late :
  slice_by_game_index df = Ok (early, mid, late) →
  (30 ≤ nunique (game_date <$> df))%nat
  ∧ early = isin_dates (early_dates (game_dates df))
              (with_game_index (game_dates df) df)
  ∧ mid = isin_dates (mid_dates (game_dates df))
            (with_game_index (game_dates df) df)
  ∧ late = isin_dates (late_dates (game_dates df))
             (with_game_index (game_dates df) df).
Proof.
  intros Hs. pose proof (slice_by_game_index_Ok_inv _ _ Hs) as Hn.
  rewrite slice_by_game_index_Ok in Hs by done. by injection Hs as <- <- <-.
Qed.

(** Whenever the slicer returns, no game date belongs to two windows: the
    index ranges [0, 10), [n//2 - 5, n//2 + 5) and [n - 10, n) are disjoint
    from 30 dates on. *)
Theorem windows_never_overlap df early mid late r1 r2 :
  slice_by_game_index df = Ok (early, mid, late) →
  (r1 ∈ early ∧ r2 ∈ mid) ∨ (r1 ∈ mid ∧ r2 ∈ late)
  ∨ (r1 ∈ early ∧ r2 ∈ late) →
  game_date r1 ≠ game_date r2.
Proof.
  intros (Hn & -> & -> & ->)%slice_by_game_index_windows.
  rewrite early_window, late_window, mid_window by lia.
  destruct (mid_start_bounds (Z.of_nat (nunique (game_date <$> df))))
    as (_ & Hend & _); [lia|].
  assert (10 ≤ mid_start (Z.of_nat (nunique (game_date <$> df)))
          ∧ mid_end (Z.of_nat (nunique (game_date <$> df)))
            ≤ Z.of_nat (nunique (game_date <$> df)) - 10) as [Hlo Hhi].
  { unfold mid_start, mid_end, mid_center.
    pose proof (Z.div_mod (Z.of_nat (nunique (game_date <$> df))) 2
                  ltac:(lia)).
    pose proof (Z.mod_pos_bound (Z.of_nat (nunique (game_date <$> df))) 2
                  ltac:(lia)). lia. }
  intros Hcase Heq.
  destruct Hcase as [[H1 H2]|[[H1 H2]|[H1 H2]]];
    apply elem_of_window_date in H1 as [H1 (r0 & Hr0 & Hd0)];
    apply elem_of_window_date in H2 as [H2 _];
    pose proof (dates_before_after _ _ Hr0) as Hsum;
    rewrite Hd0 in Hsum; rewrite <-Heq in H2; lia.
Qed.

Lemma windows_never_overlap_witness :
  ∃ early mid late,
    slice_by_game_index (season 31) = Ok (early, mid, late)
    ∧ ∀ r1 r2, r1 ∈ mid → r2 ∈ late → game_date r1 ≠ game_date r2.
Proof.
  eexists _, _, _.
  split; [apply slice_by_game_index_Ok; vm_compute; lia|].
  intros r1 r2 H1 H2.
  eapply (windows_never_overlap (season 31));
    [apply slice_by_game_index_Ok; vm_compute; lia|].
  right. left. split; eassumption.
Defined.

(** The date list depends only on which dates occur, not on the order or
    the number of the rows. *)
Lemma game_dates_same_dates df1 df2 :
  (∀ d, d ∈ game_date <$> df1 ↔ d ∈ game_date <$> df2) →
  game_dates df1 = game_dates df2.
Proof.
  intros Hd. assert (AntiSymm (=) Z.lt) by (intros x y ? ?; lia).
  apply (StronglySorted_unique Z.lt).
  - apply game_dates_sorted.
  - apply game_dates_sorted.
  - apply NoDup_Permutation; try apply NoDup_game_dates.
    intros d. rewrite !elem_of_game_dates.
    specialize (Hd d). rewrite !list_elem_of_fmap in Hd. naive_solver.
Qed.

(** Reordering the rows of the frame reorders the rows of each window and
    changes nothing else: the same dates make up Early, Mid and Late. *)
Theorem slice_by_game_index_Permutation df1 df2 early mid late :
  df1 ≡ₚ df2 →
  slice_by_game_index df1 = Ok (early, mid, late) →
  ∃ early' mid' late',
    slice_by_game_index df2 = Ok (early', mid', late')
    ∧ early ≡ₚ early' ∧ mid ≡ₚ mid' ∧ late ≡ₚ late'.
Proof.
  intros Hp (Hn & -> & -> & ->)%slice_by_game_index_windows.
  assert (game_dates df1 = game_dates df2) as Hd.
  { apply game_dates_same_dates. intros d. by rewrite Hp. }
  eexists _, _, _. split.
  - apply slice_by_game_index_Ok.
    by rewrite <-length_game_dates, <-Hd, length_game_dates.
  - rewrite <-Hd. generalize (game_dates df1). intros dates.
    unfold isin_dates, with_game_index. by rewrite Hp.
Qed.

Lemma slice_by_game_index_Permutation_witness :
  ∃ early mid late early' mid' late',
    slice_by_game_index (season 30) = Ok (early, mid, late)
    ∧ slice_by_game_index (reverse (season 30)) = Ok (early', mid', late')
    ∧ early ≡ₚ early' ∧ mid ≡ₚ mid' ∧ late ≡ₚ late'.
Proof.
  destruct (slice_by_game_index_Permutation (season 30)
              (reverse (season 30)) _ _ _
              (symmetry (reverse_Permutation (season 30)))
              (slice_by_game_index_Ok (season 30)
                 ltac:(vm_compute; lia)))
    as (early' & mid' & late' & Hs & He & Hm & Hl).
  eexists _, _, _, early', mid', late'.
  split; [apply slice_by_game_index_Ok; vm_compute; lia|]. by repeat split.
Defined.

Lemma slice_by_game_index_sample_guard_aux df :
  ((nunique (game_date <$> df) < 30)%nat →
   slice_by_game_index df
   = Raise (ValueError
              (insufficient_sample_message (nunique (game_date <$> df)))))
  ∧ ((30 ≤ nunique (game_date <$> df))%nat →
     ∃ windows, slice_by_game_index df = Ok windows).
Proof.
  split; intros Hn.
  - unfold slice_by_game_index. rewrite length_game_dates.
    by destruct (decide _); [|lia].
  - rewrite slice_by_game_index_Ok by done. eauto.
Qed.

(** The windows are views of the frame: each is, in row order, a
    sub-sequence of the rows of the input, every row with its columns
    unchanged and with the position of its date among the distinct dates,
    in chronological order, as [game_index]. *)
Theorem windows_are_views df early mid late :
  slice_by_game_index df = Ok (early, mid, late) →
  Forall (λ window,
            (∃ sub, sub `sublist_of` df ∧ window = indexed df <$> sub)
            ∧ ∀ r, r ∈ window →
                ∃ r0, r0 ∈ df
                  ∧ game_date r = game_date r0
                  ∧ events r = events r0
                  ∧ description r = description r0
                  ∧ launch_speed r = launch_speed r0
                  ∧ launch_angle r = launch_angle r0
                  ∧ hit_distance_sc r = hit_distance_sc r0
                  ∧ release_spin_rate r = release_spin_rate r0
                  ∧ game_index r = Some (dates_before df (game_date r0)))
    [early; mid; late].
Proof.
  intros (Hn & -> & -> & ->)%slice_by_game_index_windows.
  assert (∀ D, (∃ sub, sub `sublist_of` df
                       ∧ isin_dates D (with_game_index (game_dates df) df)
                         = indexed df <$> sub)
               ∧ ∀ r, r ∈ isin_dates D (with_game_index (game_dates df) df) →
                   ∃ r0, r0 ∈ df
                     ∧ game_date r = game_date r0
                     ∧ events r = events r0
                     ∧ description r = description r0
                     ∧ launch_speed r = launch_speed r0
                     ∧ launch_angle r = launch_angle r0
                     ∧ hit_distance_sc r = hit_distance_sc r0
                     ∧ release_spin_rate r = release_spin_rate r0
                     ∧ game_index r
                       = Some (dates_before df (game_date r0))) as Hview.
  { intros D. unfold isin_dates.
    rewrite (window_of_input (λ r, game_date r ∈ D)) by done. split.
    - exists (filter (λ r, game_date r ∈ D) df).
      split; [apply sublist_filter|done].
    - intros r (r0 & -> & [_ Hr0]%list_elem_of_filter)%list_elem_of_fmap.
      exists r0. by repeat split. }
  repeat constructor; apply Hview.
Qed.

Lemma windows_are_views_witness :
  ∃ early mid late,
    slice_by_game_index (season 30) = Ok (early, mid, late)
    ∧ ∃ sub, sub `sublist_of` season 30
             ∧ early = indexed (season 30) <$> sub.
Proof.
  eexists _, _, _.
  split; [apply slice_by_game_index_Ok; vm_compute; lia|].
  pose proof (windows_are_views (season 30) _ _ _
                (slice_by_game_index_Ok (season 30)
                   ltac:(vm_compute; lia))) as Hv.
  apply Forall_cons in Hv as [[Hsub _] _]. exact Hsub.
Defined.

(** * Further properties of the analysis *)

(** The analysis of a fetched frame fails in one way only: with fewer than
    30 distinct game dates it raises the insufficient-sample error; with 30
    or more it returns a result, whatever the rows hold. *)
Theorem get_full_analysis_only_failure name df :
  let n := nunique (game_date <$> df) in
  ((n < 30)%nat
   ∧ get_full_analysis name df
     = Raise (ValueError (insufficient_sample_message n)))
  ∨ ((30 ≤ n)%nat ∧ ∃ d, get_full_analysis name df = Ok d
                          ∧ player_name d = name).
Proof.
  intros n. destruct (decide (n < 30)%nat) as [Hn|Hn]; [left|right].
  - split; [done|]. unfold get_full_analysis.
    by rewrite (proj1 (slice_by_game_index_sample_guard_aux df) Hn).
  - split; [lia|].
    destruct (get_full_analysis_games name df) as (d & Hd & _); [lia|].
    exists d. split; [done|]. revert Hd. unfold get_full_analysis.
    intros Hd. repeat (apply bind_Ok in Hd as (? & ? & Hd)).
    destruct x as [[? ?] ?]. repeat (apply bind_Ok in Hd as (? & ? & Hd)).
    unfold build_diagnosis_json in Hd.
    repeat (apply bind_Ok in Hd as (? & ? & Hd)). by injection Hd as <-.
Qed.

(** * Further properties of the assembler and the classifier *)

(** A record without the key [games] makes the assembler raise
    [KeyError('games')], whereas a record without a tracked metric does
    not: on three records that are otherwise SegmentMetrics the assembler
    returns, and the trend of that metric is [insufficient_data]. *)
Theorem build_diagnosis_json_missing_keys name early mid late :
  (early !! "games" = None →
   build_diagnosis_json name early mid late = Raise (KeyError "games"))
  ∧ (SegmentMetrics early → mid !! "games" = None →
     build_diagnosis_json name early mid late = Raise (KeyError "games"))
  ∧ (SegmentMetrics early → SegmentMetrics mid → SegmentMetrics late →
     ∀ kt, kt ∈ tracked_metrics →
       early !! kt.1 = None ∨ late !! kt.1 = None →
       ∃ d, build_diagnosis_json name early mid late = Ok d
            ∧ summary d !! kt.2 = Some (VStr "insufficient_data")).
Proof.
  split; [|split].
  - intros He. unfold build_diagnosis_json, getitem. by rewrite He.
  - intros [[g Hg] _] Hm. unfold build_diagnosis_json, getitem.
    by rewrite Hg, Hm.
  - intros [[ge Hge] Hte] [[gm Hgm] _] [[gl Hgl] Htl] kt Hkt Hnone.
    assert (∀ m, _calculate_trend (dict_get early kt.1) m
                   (dict_get late kt.1) = Ok "insufficient_data") as Hlabel.
    { intros m. unfold dict_get. destruct Hnone as [-> | ->]; simpl;
        [done|]. unfold _calculate_trend. by destruct (default _ _). }
    assert (∀ k, k ∈ tracked_metrics.*1 →
              ∃ label, _calculate_trend (dict_get early k) (dict_get mid k)
                         (dict_get late k) = Ok label) as Ht
      by (intros k Hk; apply calculate_trend_total; auto).
    destruct (Ht "avg_launch_speed") as [t1 H1]; [set_solver|].
    destruct (Ht "hard_hit_rate") as [t2 H2]; [set_solver|].
    destruct (Ht "k_rate") as [t3 H3]; [set_solver|].
    eexists. split; [by eapply build_diagnosis_json_Ok|].
    cbn [summary]. unfold tracked_metrics in Hkt.
    apply elem_of_cons in Hkt as [->|Hkt];
      [|apply elem_of_cons in Hkt as [->|Hkt];
        [|apply list_elem_of_singleton in Hkt as ->]];
      cbn [fst snd] in *; rewrite Hlabel in *; by simplify_map_eq.
Qed.

Lemma build_diagnosis_json_missing_keys_witness :
  build_diagnosis_json "Aaron Judge" ∅ (sample_metrics 10 90)
    (sample_metrics 10 91) = Raise (KeyError "games")
  ∧ build_diagnosis_json "Aaron Judge" (sample_metrics 10 90) ∅
      (sample_metrics 10 91) = Raise (KeyError "games")
  ∧ ∃ d, build_diagnosis_json "Aaron Judge" (sample_metrics 10 90)
           (sample_metrics 10 90) (sample_metrics 10 91) = Ok d
         ∧ summary d !! "hard_hit_trend" = Some (VStr "insufficient_data").
Proof.
  destruct (build_diagnosis_json_missing_keys "Aaron Judge" ∅
              (sample_metrics 10 90) (sample_metrics 10 91)) as (H1 & _).
  destruct (build_diagnosis_json_missing_keys "Aaron Judge"
              (sample_metrics 10 90) ∅ (sample_metrics 10 91))
    as (_ & H2 & _).
  destruct (build_diagnosis_json_missing_keys "Aaron Judge"
              (sample_metrics 10 90) (sample_metrics 10 90)
              (sample_metrics 10 91)) as (_ & _ & H3).
  split; [apply H1; reflexivity|].
  split; [apply H2; [apply sample_metrics_SegmentMetrics|reflexivity]|].
  apply (H3 (sample_metrics_SegmentMetrics _ _)
            (sample_metrics_SegmentMetrics _ _)
            (sample_metrics_SegmentMetrics _ _)
            ("hard_hit_rate", "hard_hit_trend")).
  - unfold tracked_metrics. set_solver.
  - by left.
Defined.

(** Exchanging the Early and the Late value exchanges [increasing] and
    [decreasing] and keeps [stable] and [insufficient_data]. *)
Theorem calculate_trend_swap early mid late label :
  number_or_none early → number_or_none late →
  _calculate_trend early mid late = Ok label →
  _calculate_trend late mid early
  = Ok (if decide (label = "increasing") then "decreasing"
        else if decide (label = "decreasing") then "increasing"
        else label).
Proof.
  intros [->|[e He]] [->|[l Hl]].
  - by intros [= <-].
  - intros [= <-]. simpl. unfold _calculate_trend.
    by destruct late.
  - unfold _calculate_trend at 1. destruct early; simpl; by intros [= <-].
  - rewrite (calculate_trend_numbers _ _ _ _ _ He Hl),
      (calculate_trend_numbers _ _ _ _ _ Hl He).
    assert (Qabs (e - l) == Qabs (l - e))%Q as Habs
      by (rewrite <-Qabs_opp; apply Qabs_wd; ring).
    destruct (decide (Qabs (l - e) < 1)%Q) as [Hs|Hs].
    + rewrite (decide_True (P:=(Qabs (e - l) < 1)%Q)) by (by rewrite Habs).
      intros Heq. assert (label = "stable") as -> by congruence. done.
    + rewrite (decide_False (P:=(Qabs (e - l) < 1)%Q)) by (by rewrite Habs).
      assert (¬ (-1 < l - e ∧ l - e < 1))%Q as Hns.
      { intros [H1 H2]. apply Hs, Qabs_Qlt_condition. split; lra. }
      destruct (decide (0 < l - e)%Q) as [Hp|Hp].
      * rewrite (decide_False (P:=(0 < e - l)%Q)) by lra.
        intros Heq. assert (label = "increasing") as -> by congruence.
        done.
      * rewrite (decide_True (P:=(0 < e - l)%Q))
          by (destruct (Qlt_le_dec (-1) (l - e)); lra).
        intros Heq. assert (label = "decreasing") as -> by congruence.
        done.
Qed.

Lemma calculate_trend_swap_witness :
  _calculate_trend (VFloat (895 # 10)) VNone (VFloat 88) = Ok "decreasing".
Proof.
  apply (calculate_trend_swap (VFloat 88) VNone (VFloat (895 # 10))
           "increasing"); [right; by eexists|right; by eexists|].
  by vm_compute.
Defined.

(** * Further properties of the aggregator *)

(** ** Rounding keeps integer bounds *)

Lemma round_half_even_bounds x (a b : Z) :
  (inject_Z a <= x)%Q → (x <= inject_Z b)%Q →
  a ≤ round_half_even x ≤ b.
Proof.
  intros Ha Hb. unfold round_half_even.
  pose proof (Qfloor_resp_le _ _ Ha) as Hfa. rewrite Qfloor_Z in Hfa.
  pose proof (Qfloor_resp_le _ _ Hb) as Hfb. rewrite Qfloor_Z in Hfb.
  assert (Qfloor x < b ∨ (x - inject_Z (Qfloor x) <= 0)%Q) as Hcase.
  { destruct (decide (Qfloor x < b)) as [?|Hge]; [by left|right].
    assert (Qfloor x = b) as -> by lia. lra. }
  destruct (Qcompare_spec (x - inject_Z (Qfloor x)) (1 # 2)) as [He|Hl|Hg].
  - destruct (Z.even _); [lia|]. destruct Hcase; [lia|lra].
  - lia.
  - destruct Hcase; [lia|lra].
Qed.

Lemma py_round_bounds x ndigits (a b : Z) :
  (inject_Z a <= x)%Q → (x <= inject_Z b)%Q →
  (inject_Z a <= py_round x ndigits)%Q
  ∧ (py_round x ndigits <= inject_Z b)%Q.
Proof.
  intros Ha Hb. unfold py_round. rewrite Qred_correct.
  assert (0 < 10 ^ Z.of_nat ndigits) as Hpos by (apply Z.pow_pos_nonneg; lia).
  assert (0 < inject_Z (10 ^ Z.of_nat ndigits))%Q as Hscale
    by (by rewrite <-(Zlt_Qlt 0)).
  destruct (round_half_even_bounds (x * inject_Z (10 ^ Z.of_nat ndigits))
              (a * 10 ^ Z.of_nat ndigits) (b * 10 ^ Z.of_nat ndigits))
    as [Hlo Hhi].
  - rewrite inject_Z_mult. apply Qmult_le_compat_r; [done|lra].
  - rewrite inject_Z_mult. apply Qmult_le_compat_r; [done|lra].
  - split.
    + apply Qle_shift_div_l; [done|].
      rewrite <-inject_Z_mult. by rewrite <-Zle_Qle.
    + apply Qle_shift_div_r; [done|].
      rewrite <-inject_Z_mult. by rewrite <-Zle_Qle.
Qed.

Lemma ratio_bounds (num den : Z) :
  0 ≤ num ≤ den → 0 < den →
  (0 <= inject_Z num / inject_Z den)%Q ∧ (inject_Z num / inject_Z den <= 1)%Q.
Proof.
  intros [H0 Hle] Hden.
  assert (0 < inject_Z den)%Q by (by rewrite <-(Zlt_Qlt 0)).
  split.
  - apply Qle_shift_div_l; [done|]. rewrite Qmult_0_l.
    by rewrite <-(Zle_Qle 0).
  - apply Qle_shift_div_r; [done|]. rewrite Qmult_1_l. by rewrite <-Zle_Qle.
Qed.

(** ** Counts of one series against each other *)

Lemma length_filter_impl {A} (P Q : A → Prop)
    `{∀ x, Decision (P x)} `{∀ x, Decision (Q x)} (l : list A) :
  (∀ x, P x → Q x) →
  (length (filter P l) ≤ length (filter Q l))%nat.
Proof.
  intros HPQ. induction l as [|x l IH]; [done|].
  rewrite !filter_cons.
  destruct (decide (P x)) as [HP|HP], (decide (Q x)) as [HQ|HQ];
    simpl; try lia.
  by destruct HQ; apply HPQ.
Qed.

Lemma length_filter_disjoint {A} (P Q R : A → Prop)
    `{∀ x, Decision (P x)} `{∀ x, Decision (Q x)} `{∀ x, Decision (R x)}
    (l : list A) :
  (∀ x, P x → R x) → (∀ x, Q x → R x) → (∀ x, P x → Q x → False) →
  (length (filter P l) + length (filter Q l) ≤ length (filter R l))%nat.
Proof.
  intros HPR HQR HPQ. induction l as [|x l IH]; [done|].
  rewrite !filter_cons.
  destruct (decide (P x)) as [HP|HP], (decide (Q x)) as [HQ|HQ],
    (decide (R x)) as [HR|HR]; simpl; try lia;
    exfalso; eauto.
Qed.

Lemma babip_counts evs :
  0 ≤ babip_numerator evs ≤ babip_denominator evs.
Proof.
  unfold babip_numerator, babip_denominator, hits, at_bats, home_runs,
    strikeouts, sac_flies, count_eq, count_isin.
  pose proof (length_filter_impl (λ x, x = "home_run") (λ x, x ∈ hit_events)
                evs) as Hhr.
  pose proof (length_filter_disjoint (λ x, x ∈ hit_events)
                (λ x, x = "strikeout") (λ x, x ∈ at_bat_events) evs) as Hab.
  assert (length (filter (λ x, x = "home_run") evs)
          ≤ length (filter (λ x, x ∈ hit_events) evs))%nat
    by (apply Hhr; intros x ->; unfold hit_events; set_solver).
  assert (length (filter (λ x, x ∈ hit_events) evs)
          + length (filter (λ x, x = "strikeout") evs)
          ≤ length (filter (λ x, x ∈ at_bat_events) evs))%nat.
  { apply Hab.
    - apply hit_events_at_bat.
    - intros x ->. unfold at_bat_events. set_solver.
    - intros x Hx ->. unfold hit_events in Hx. set_solver. }
  lia.
Qed.

(** A value that is null or a float between two integers. *)
Lemma float_or_none_bounds (guard : Prop) `{Decision guard} q (a b : Z) :
  (guard → (inject_Z a <= q)%Q ∧ (q <= inject_Z b)%Q) →
  float_or_none guard q = VNone
  ∨ ∃ q', float_or_none guard q = VFloat q'
          ∧ (inject_Z a <= q')%Q ∧ (q' <= inject_Z b)%Q.
Proof.
  intros Hq. unfold float_or_none.
  destruct (decide guard) as [Hg|Hg]; [right|by left]. eauto.
Qed.

(** On every window, each of the four percentages [hard_hit_rate],
    [whiff_rate], [bb_rate] and [k_rate] is null or lies between 0 and 100,
    and [babip] is null or lies between 0 and 1. *)
Theorem rates_are_bounded df name :
  ∃ m, aggregate_metrics df name = Ok m
    ∧ Forall (λ k, m !! k = Some VNone
                   ∨ ∃ q, m !! k = Some (VFloat q)
                          ∧ (0 <= q)%Q ∧ (q <= 100)%Q)
        ["hard_hit_rate"; "whiff_rate"; "bb_rate"; "k_rate"]
    ∧ (m !! "babip" = Some VNone
       ∨ ∃ q, m !! "babip" = Some (VFloat q) ∧ (0 <= q)%Q ∧ (q <= 1)%Q).
Proof.
  destruct (aggregate_metrics_Ok df name) as (m & Hm & He).
  exists m. split; [done|].
  assert (∀ count total : Z, 0 ≤ count ≤ total → 0 < total →
            (inject_Z 0 <= py_round (inject_Z count / inject_Z total * 100) 2)%Q
            ∧ (py_round (inject_Z count / inject_Z total * 100) 2
               <= inject_Z 100)%Q) as Hrate.
  { intros count total Hc Ht. destruct (ratio_bounds _ _ Hc Ht) as [H0 H1].
    revert H0 H1. generalize (inject_Z count / inject_Z total)%Q.
    intros q H0 H1.
    apply py_round_bounds; [change (inject_Z 0) with 0%Q
                           |change (inject_Z 100) with 100%Q]; lra. }
  assert (∀ (guard : Prop) `{Decision guard} q (a b : Z) k,
            m !! k = Some (float_or_none guard q) →
            (guard → (inject_Z a <= q)%Q ∧ (q <= inject_Z b)%Q) →
            m !! k = Some VNone
            ∨ ∃ q', m !! k = Some (VFloat q')
                    ∧ (inject_Z a <= q')%Q ∧ (q' <= inject_Z b)%Q) as Hk.
  { intros guard ? q a b k -> Hq.
    destruct (float_or_none_bounds guard q a b Hq) as [->|(q' & -> & ?)];
      [by left|right; eauto]. }
  split; [rewrite !Forall_cons; split_and!; [| | | |by apply Forall_nil]|].
  - eapply (Hk _ _ _ 0 100); [apply (entry_hard_hit_rate _ _ _ He)|].
    intros Hpos. apply Hrate; [|done].
    pose proof (length_filter (λ x, 95 < x)%Q (dropna (launch_speed <$> df))).
    lia.
  - eapply (Hk _ _ _ 0 100); [apply (entry_whiff_rate _ _ _ He)|].
    intros Hpos. apply Hrate; [|done]. unfold description_isin.
    pose proof (length_filter_impl
                  (λ r, description r ∈ Some <$> whiff_descriptions)
                  (λ r, description r ∈ Some <$> swing_descriptions) df) as Hw.
    split; [lia|]. apply inj_le, Hw. intros r.
    unfold whiff_descriptions, swing_descriptions. set_solver.
  - eapply (Hk _ _ _ 0 100); [apply (entry_bb_rate _ _ _ He)|].
    intros Hpos. apply Hrate; [|done]. unfold walks, count_eq.
    pose proof (length_filter (λ x, x = "walk") (dropna (events <$> df))).
    lia.
  - eapply (Hk _ _ _ 0 100); [apply (entry_k_rate _ _ _ He)|].
    intros Hpos. apply Hrate; [|done]. unfold strikeouts, count_eq.
    pose proof (length_filter (λ x, x = "strikeout")
                  (dropna (events <$> df))).
    lia.
  - eapply (Hk _ _ _ 0 1); [apply (entry_babip _ _ _ He)|].
    intros Hpos. pose proof (babip_counts (dropna (events <$> df))) as Hc.
    destruct (ratio_bounds _ _ Hc Hpos) as [H0 H1].
    apply py_round_bounds; [change (inject_Z 0) with 0%Q
                           |change (inject_Z 1) with 1%Q]; done.
Qed.

(** * Properties of the narrative prompt *)

Lemma calculate_trend_label_cases early mid late label :
  _calculate_trend early mid late = Ok label →
  label ∈ ["insufficient_data"; "stable"; "increasing"; "decreasing"].
Proof.
  unfold _calculate_trend. destruct (_ || _); [intros [= <-]; set_solver|].
  intros (diff & _ & Hl)%bind_Ok. revert Hl.
  repeat case_decide; intros [= <-]; set_solver.
Qed.

(** Every label that the classifier returns has an entry in
    [translations], so that [_translate_trend] never lets the English label
    through, and different labels have different translations; a string
    without an entry is returned as it is. *)
Theorem translate_trend_labels early mid late label :
  _calculate_trend early mid late = Ok label →
  translations !! label = Some (_translate_trend label)
  ∧ _translate_trend label ≠ label
  ∧ (∀ early' mid' late' label',
       _calculate_trend early' mid' late' = Ok label' →
       _translate_trend label = _translate_trend label' → label = label')
  ∧ (∀ other, translations !! other = None → _translate_trend other = other).
Proof.
  intros Hl%calculate_trend_label_cases.
  assert (label = "insufficient_data" ∨ label = "stable"
          ∨ label = "increasing" ∨ label = "decreasing") as Hcases
    by set_solver.
  split; [|split; [|split]].
  - destruct Hcases as [-> | [-> | [-> | ->]]]; by vm_compute.
  - destruct Hcases as [-> | [-> | [-> | ->]]]; by vm_compute.
  - intros early' mid' late' label' Hl'%calculate_trend_label_cases.
    assert (label' = "insufficient_data" ∨ label' = "stable"
            ∨ label' = "increasing" ∨ label' = "decreasing") as Hcases'
      by set_solver.
    destruct Hcases as [-> | [-> | [-> | ->]]];
      destruct Hcases' as [-> | [-> | [-> | ->]]]; by vm_compute.
  - intros other Ho. unfold _translate_trend. by rewrite Ho.
Qed.

Lemma translate_trend_labels_witness :
  translations !! "increasing" = Some (_translate_trend "increasing")
  ∧ _translate_trend "increasing" ≠ "increasing".
Proof.
  destruct (translate_trend_labels (VFloat 88) VNone (VFloat (895 # 10))
              "increasing") as (H1 & H2 & _); [by vm_compute|].
  split; [exact H1|exact H2].
Defined.

Lemma configure_gemini_Ok getenv api_key key :
  configure_gemini getenv api_key = Ok key
  ↔ key ≠ "" ∧ key ≠ placeholder_key
    ∧ (api_key = Some key
       ∨ ((api_key = None ∨ api_key = Some "") ∧ getenv = Some key)).
Proof.
  unfold configure_gemini, str_falsy.
  destruct api_key as [k|], getenv as [e|]; simpl;
    repeat (match goal with
            | |- context [bool_decide (?x = ?y)] =>
                destruct (bool_decide_reflect (x = y)); simpl
            end);
    naive_solver.
Qed.

(** [configure_gemini] configures only with a key that is neither empty nor
    the placeholder; a usable explicit key is the one configured whatever
    the environment holds, the environment serves only when no explicit key
    is given, and an explicit placeholder is refused even when the
    environment holds a usable key. *)
Theorem configure_gemini_key getenv api_key :
  (∀ key, configure_gemini getenv api_key = Ok key →
     key ≠ "" ∧ key ≠ placeholder_key
     ∧ (api_key = Some key
        ∨ ((api_key = None ∨ api_key = Some "") ∧ getenv = Some key)))
  ∧ (∀ key, api_key = Some key → key ≠ "" → key ≠ placeholder_key →
       configure_gemini getenv api_key = Ok key)
  ∧ (api_key = Some placeholder_key →
     ∃ msg, configure_gemini getenv api_key = Raise (ValueError msg)).
Proof.
  split; [|split].
  - intros key. by rewrite configure_gemini_Ok.
  - intros key Hk H0 Hp. apply configure_gemini_Ok. eauto.
  - intros ->. by eexists.
Qed.

Lemma configure_gemini_key_witness :
  configure_gemini (Some "key-from-env") (Some "key-from-sidebar")
  = Ok "key-from-sidebar"
  ∧ ∃ msg, configure_gemini (Some "key-from-env") (Some placeholder_key)
           = Raise (ValueError msg).
Proof.
  split.
  - apply (proj1 (proj2 (configure_gemini_key (Some "key-from-env")
                           (Some "key-from-sidebar"))));
      [reflexivity|discriminate|discriminate].
  - apply (proj2 (proj2 (configure_gemini_key (Some "key-from-env")
                           (Some placeholder_key)))). reflexivity.
Defined.

(** * Properties of the dashboard *)

Lemma get_api_key_cases getenv session :
  (∃ e, getenv = Some e ∧ e ≠ "" ∧ e ≠ placeholder_key
        ∧ get_api_key getenv session = e)
  ∨ ((∀ e, getenv = Some e → e = "" ∨ e = placeholder_key)
     ∧ get_api_key getenv session = default "" session).
Proof.
  unfold get_api_key, str_falsy. destruct getenv as [e|]; [|naive_solver].
  destruct (bool_decide_reflect (e = "")); simpl; [naive_solver|].
  destruct (bool_decide_reflect (e = placeholder_key)); simpl; naive_solver.
Qed.

(** The key that reaches [genai.configure] when the dashboard passes the
    result of [get_api_key] to [configure_gemini]: the key of the
    environment when that one is usable, otherwise the key of the session
    when that one is usable, and an error otherwise. *)
Theorem dashboard_key_precedence getenv session key :
  configure_gemini getenv (Some (get_api_key getenv session)) = Ok key
  ↔ key ≠ "" ∧ key ≠ placeholder_key
    ∧ (getenv = Some key
       ∨ ((∀ e, getenv = Some e → e = "" ∨ e = placeholder_key)
          ∧ session = Some key)).
Proof.
  rewrite configure_gemini_Ok.
  destruct (get_api_key_cases getenv session)
    as [(e & -> & He & Hp & ->)|[Hu ->]].
  - naive_solver.
  - destruct session as [s|]; simpl; naive_solver.
Qed.

(** ** The radar chart *)

Lemma py_min_max_bounds q :
  (0 <= py_min 100 (py_max 0 q))%Q ∧ (py_min 100 (py_max 0 q) <= 100)%Q.
Proof. unfold py_min, py_max. repeat case_decide; split; lra. Qed.

Lemma normalize_Ok val min_val max_val :
  number_or_none val → min_val ≠ max_val →
  ∃ q, normalize val min_val max_val = Ok q
       ∧ (0 <= q)%Q ∧ (q <= 100)%Q ∧ (val = VNone → q = 50%Q).
Proof.
  intros [-> | [x Hx]] Hne.
  - exists 50%Q. repeat split; (done || lra).
  - unfold normalize, py_sub, py_truediv. rewrite Hx.
    replace (is_none val) with false by (by destruct val). simpl.
    destruct (decide _) as [H0|_].
    { unfold Qeq in H0. simpl in H0. lia. }
    simpl. eexists. split; [done|].
    split; [apply py_min_max_bounds|].
    split; [apply py_min_max_bounds|]. intros ->. done.
Qed.

Lemma metrics_entries_radar df name m k :
  metrics_entries df name m →
  k ∈ ["avg_launch_speed"; "hard_hit_rate"; "bb_rate"; "k_rate";
       "max_hit_distance"] →
  number_or_none (dict_get m k).
Proof.
  intros He Hk. unfold dict_get, number_or_none.
  repeat (apply elem_of_cons in Hk as [-> | Hk]);
    [rewrite (entry_avg_launch_speed _ _ _ He)
    |rewrite (entry_hard_hit_rate _ _ _ He)
    |rewrite (entry_bb_rate _ _ _ He)
    |rewrite (entry_k_rate _ _ _ He)
    |rewrite (entry_max_hit_distance _ _ _ He)
    |by apply elem_of_nil in Hk];
    simpl; unfold float_or_none;
    try (destruct (decide _); [right|left]; by eauto).
  destruct (dropna _); [left|right]; by eauto.
Qed.

(** For the metrics of every window, the radar chart gets six radii, each
    between 0 and 100, the last one repeating the first; no metric being
    null or out of its range makes [get_scores] fail. *)
Theorem radar_trace_of_window df name :
  ∃ m scores,
    aggregate_metrics df name = Ok m
    ∧ radar_trace m = Ok scores
    ∧ length scores = 6%nat
    ∧ Forall (λ s, (0 <= s)%Q ∧ (s <= 100)%Q) scores
    ∧ scores !! 5%nat = scores !! 0%nat.
Proof.
  destruct (aggregate_metrics_Ok df name) as (m & Hm & He).
  assert (∀ k lo hi,
            k ∈ ["avg_launch_speed"; "hard_hit_rate"; "bb_rate"; "k_rate";
                 "max_hit_distance"] → lo ≠ hi →
            ∃ q, normalize (dict_get m k) lo hi = Ok q
                 ∧ (0 <= q)%Q ∧ (q <= 100)%Q) as Hn.
  { intros k lo hi Hk Hne.
    destruct (normalize_Ok (dict_get m k) lo hi) as (q & Hq & H0 & H1 & _);
      eauto using metrics_entries_radar. }
  destruct (Hn "avg_launch_speed" 80 100) as (s1 & Hs1 & ? & ?);
    [set_solver|done|].
  destruct (Hn "hard_hit_rate" 20 60) as (s2 & Hs2 & ? & ?);
    [set_solver|done|].
  destruct (Hn "bb_rate" 0 15) as (s3 & Hs3 & ? & ?); [set_solver|done|].
  destruct (Hn "k_rate" 10 35) as (s4 & Hs4 & ? & ?); [set_solver|done|].
  destruct (Hn "max_hit_distance" 350 450) as (s5 & Hs5 & ? & ?);
    [set_solver|done|].
  exists m, [s1; s2; s3; (100 - s4)%Q; s5; s1]. split; [done|].
  split; [unfold radar_trace, get_scores; by rewrite Hs1, Hs2, Hs3, Hs4, Hs5|].
  split; [done|]. split; [|done].
  repeat (apply Forall_cons; split); try done; try apply Forall_nil;
    split; lra.
Qed.

(** ** The trend chart *)

Lemma get_or_zero_number segment metric :
  (∀ v, segment !! metric = Some v → number_or_none v) →
  ∃ q, as_number (get_or_zero segment metric) = Some q
       ∧ ∀ v x, segment !! metric = Some v → as_number v = Some x →
                (q == x)%Q.
Proof.
  intros Hv. unfold get_or_zero.
  destruct (segment !! metric) as [v|] eqn:Hl; simpl.
  - destruct (Hv v eq_refl) as [-> | [x Hx]].
    + exists 0%Q. split; [done|]. by intros ? ? [= <-].
    + destruct (truthy v) eqn:Ht.
      * exists x. split; [done|]. intros ? ? [= <-]. rewrite Hx.
        by intros [= <-].
      * exists 0%Q. split; [done|]. intros ? x' [= <-]. rewrite Hx.
        intros [= <-]. destruct v; simplify_eq/=.
        -- apply negb_false_iff, Z.eqb_eq in Ht. by subst.
        -- apply negb_false_iff, Qeq_bool_iff in Ht. by symmetry.
  - exists 0%Q. split; [done|]. by intros.
Qed.

Lemma py_max_fold a b c :
  let m := foldl py_max a [b; c] in
  (a <= m)%Q ∧ (b <= m)%Q ∧ (c <= m)%Q ∧ (m = a ∨ m = b ∨ m = c).
Proof.
  simpl. unfold py_max. repeat case_decide; repeat split; try lra; eauto.
Qed.

Lemma scaled_le_100 v c :
  (0 < c)%Q → (v <= c)%Q → (v / c * 100 <= 100)%Q.
Proof.
  intros Hc Hv. assert (v / c <= 1)%Q as Hle
    by (apply Qle_shift_div_r; [done|lra]).
  revert Hle. generalize (v / c)%Q. intros t Ht. lra.
Qed.

Lemma scaled_max_100 c : (0 < c)%Q → (c / c * 100 == 100)%Q.
Proof. intros Hc. field. lra. Qed.

(** For a metric that is numeric, null or absent in each of the three
    records, the trend chart gets three normalised values, dividing by
    zero for none of them; each is at most 100, and one of them is 100 as
    soon as the metric is positive in some record. *)
Theorem normalized_trend_values early mid late metric :
  Forall (λ seg, ∀ v, seg !! metric = Some v → number_or_none v)
    [early; mid; late] →
  ∃ n1 n2 n3,
    normalized early mid late metric = Ok [n1; n2; n3]
    ∧ Forall (λ n, (n <= 100)%Q) [n1; n2; n3]
    ∧ (Exists (λ seg, ∃ v x, seg !! metric = Some v
                             ∧ as_number v = Some x ∧ (0 < x)%Q)
         [early; mid; late] →
       Exists (λ n, (n == 100)%Q) [n1; n2; n3]).
Proof.
  intros Hsegs. apply Forall_cons in Hsegs as [He Hsegs].
  apply Forall_cons in Hsegs as [Hm Hsegs].
  apply Forall_cons in Hsegs as [Hl _].
  destruct (get_or_zero_number early metric He) as (q1 & Hq1 & Hx1).
  destruct (get_or_zero_number mid metric Hm) as (q2 & Hq2 & Hx2).
  destruct (get_or_zero_number late metric Hl) as (q3 & Hq3 & Hx3).
  destruct (py_max_fold q1 q2 q3) as (H1 & H2 & H3 & Hmax).
  set (m := foldl py_max q1 [q2; q3]) in *.
  set (max_val := if decide (0 < m)%Q then m else 1%Q).
  assert (0 < max_val)%Q as Hpos
    by (unfold max_val; case_decide; [done|lra]).
  assert (∀ v, py_truediv v max_val = Ok (v / max_val)%Q) as Hdiv.
  { intros v. unfold py_truediv.
    destruct (decide (max_val == 0)%Q) as [H0|_]; [|done].
    revert H0 Hpos. generalize max_val. intros c H0 Hpos. lra. }
  assert (∀ v, (v <= m)%Q → (v / max_val * 100 <= 100)%Q) as Hle.
  { intros v Hv. apply scaled_le_100; [done|].
    unfold max_val. case_decide; lra. }
  exists (q1 / max_val * 100)%Q, (q2 / max_val * 100)%Q,
    (q3 / max_val * 100)%Q.
  split; [|split].
  - unfold normalized, chart_values, number_of. simpl.
    rewrite Hq1, Hq2, Hq3. simpl. fold m. fold max_val.
    by rewrite !Hdiv.
  - repeat (apply Forall_cons; split); auto.
  - intros Hex.
    assert (0 < m)%Q as Hm0.
    { repeat (apply Exists_cons in Hex as [(v & x & Hv & Hx & H0) | Hex]);
        [specialize (Hx1 _ _ Hv Hx)|specialize (Hx2 _ _ Hv Hx)
        |specialize (Hx3 _ _ Hv Hx)|by apply Exists_nil in Hex]; lra. }
    assert (max_val = m) as Hmv by (unfold max_val; by rewrite decide_True).
    rewrite Hmv.
    destruct Hmax as [Heq | [Heq | Heq]]; rewrite <-Heq.
    + apply Exists_cons_hd. by apply scaled_max_100.
    + apply Exists_cons_tl, Exists_cons_hd. by apply scaled_max_100.
    + apply Exists_cons_tl, Exists_cons_tl, Exists_cons_hd.
      by apply scaled_max_100.
Qed.

Lemma normalized_trend_values_witness :
  ∃ n1 n2 n3,
    normalized (sample_metrics 10 88) (sample_metrics 10 90)
      (sample_metrics 10 (895 # 10)) "avg_launch_speed" = Ok [n1; n2; n3]
    ∧ Forall (λ n, (n <= 100)%Q) [n1; n2; n3].
Proof.
  destruct (normalized_trend_values (sample_metrics 10 88)
              (sample_metrics 10 90) (sample_metrics 10 (895 # 10))
              "avg_launch_speed") as (n1 & n2 & n3 & Hn & Hle & _).
  - repeat (apply Forall_cons; split); [| | |by apply Forall_nil];
      intros v Hv; unfold sample_metrics in Hv;
      rewrite lookup_insert_eq in Hv; injection Hv as <-;
      right; by eexists.
  - by exists n1, n2, n3.
Defined.

(** * Properties of the fetch collaborators *)

(** What [fetch_statcast_data] returns is never empty and is a
    sub-sequence of the provider's rows; with a [game_type] column it is
    exactly the regular-season rows, without one it is the frame as it
    came.  An empty frame, and a frame without regular-season rows, raise
    [ValueError]. *)
Theorem fetch_statcast_data_regular_season df start_date end_date :
  (∀ out, fetch_statcast_data df start_date end_date = Ok out →
     provider_rows out ≠ []
     ∧ provider_rows out `sublist_of` provider_rows df
     ∧ (has_game_type df = true →
        provider_rows out = filter (λ r, r.1 = Some "R") (provider_rows df)
        ∧ Forall (λ r, r.1 = Some "R") (provider_rows out))
     ∧ (has_game_type df = false → out = df))
  ∧ (provider_rows df = [] ∨
     (has_game_type df = true
      ∧ Forall (λ r, r.1 ≠ Some "R") (provider_rows df)) →
     ∃ msg, fetch_statcast_data df start_date end_date
            = Raise (ValueError msg)).
Proof.
  unfold fetch_statcast_data. split.
  - intros out. destruct (decide (provider_rows df = [])) as [|Hne]; [done|].
    destruct (has_game_type df) eqn:Hg.
    + simpl. destruct (decide _) as [|Hne']; [done|]. intros [= <-]. simpl.
      split; [done|]. split; [apply sublist_filter|]. split; [|done].
      intros _. split; [done|].
      apply Forall_forall. by intros r [Hr _]%list_elem_of_filter.
    + intros [= <-]. split; [done|]. by split.
  - intros [Hempty | [Hg Hall]].
    + rewrite decide_True by done. by eexists.
    + destruct (decide (provider_rows df = [])); [by eexists|].
      rewrite Hg. simpl. rewrite decide_True; [by eexists|].
      by apply filter_none.
Qed.

Lemma fetch_statcast_data_regular_season_witness :
  ∃ out,
    fetch_statcast_data
      {| has_game_type := true;
         provider_rows := [(Some "S", event_row 0 None);
                           (Some "R", event_row 1 None)] |}
      "2024-03-20" "2024-10-31" = Ok out
    ∧ provider_rows out = [(Some "R", event_row 1 None)].
Proof.
  eexists. split; [by vm_compute|].
  destruct (proj1 (fetch_statcast_data_regular_season
                     {| has_game_type := true;
                        provider_rows := [(Some "S", event_row 0 None);
                                          (Some "R", event_row 1 None)] |}
                     "2024-03-20" "2024-10-31") _ eq_refl)
    as (_ & _ & Hr & _).
  destruct (Hr eq_refl) as [-> _]. reflexivity.
Defined.

Lemma drop_duplicates_head l x :
  head l = Some x → head (drop_duplicates l) = Some x.
Proof. by destruct l. Qed.

(** When [get_game_data] returns a frame, it is not empty, it is a
    sub-sequence of what [statcast] returned, and it holds all the pitches
    of one game, in which the team played: the game of the first pitch of
    the team that day, so that the second game of a doubleheader is left
    out.  It returns [None] exactly when no frame came or the team has no
    pitch in it. *)
Theorem get_game_data_one_game fetched team_code :
  (∀ rows, get_game_data fetched team_code = Some rows →
     rows ≠ []
     ∧ ∃ df first,
         fetched = Ok (Some df)
         ∧ head (filter (λ r, home_team r = team_code
                              ∨ away_team r = team_code) df) = Some first
         ∧ rows = filter (λ r, (home_team r = team_code
                                ∨ away_team r = team_code)
                               ∧ game_pk r = game_pk first) df
         ∧ rows `sublist_of` df)
  ∧ (get_game_data fetched team_code = None
     ↔ ∀ df, fetched = Ok (Some df) →
             Forall (λ r, ¬ (home_team r = team_code
                             ∨ away_team r = team_code)) df).
Proof.
  unfold get_game_data.
  destruct fetched as [[df|]|e]; [|by split; [|split]..].
  set (P := λ r : GamePitch, home_team r = team_code ∨ away_team r = team_code).
  destruct (decide (df = [])) as [-> | Hne].
  { split; [done|]. split; [|done]. intros _ ? [= <-]. constructor. }
  destruct (decide (filter P df = [])) as [Hnone | Hsome].
  { split; [done|]. split; [|done]. intros _ df' [= <-].
    apply Forall_forall. intros r Hr HP.
    assert (r ∈ filter P df) as Hin by (by apply list_elem_of_filter).
    rewrite Hnone in Hin. by apply elem_of_nil in Hin. }
  destruct (filter P df) as [|first team] eqn:Hteam; [done|].
  rewrite fmap_cons. cbn [drop_duplicates].
  split.
  - intros rows Hrows. injection Hrows as <-. split.
    { rewrite filter_cons_True by done. discriminate. }
    exists df, first. split; [done|]. split; [by rewrite Hteam|].
    rewrite <-Hteam. split.
    + rewrite list_filter_filter. apply list_filter_iff.
      unfold P. naive_solver.
    + etrans; apply sublist_filter.
  - split; [done|]. intros Hall. specialize (Hall df eq_refl).
    assert (first ∈ filter P df) as Hin by (rewrite Hteam; by left).
    apply list_elem_of_filter in Hin as [HP Hin].
    rewrite Forall_forall in Hall. by destruct (Hall first Hin).
Qed.

Lemma get_game_data_one_game_witness :
  get_game_data
    (Ok (Some [{| home_team := "NYY"; away_team := "BOS"; game_pk := 1;
                  pitch_number := 1 |};
               {| home_team := "LAD"; away_team := "SF"; game_pk := 2;
                  pitch_number := 1 |};
               {| home_team := "NYY"; away_team := "BOS"; game_pk := 3;
                  pitch_number := 1 |}])) "BOS"
  = Some [{| home_team := "NYY"; away_team := "BOS"; game_pk := 1;
             pitch_number := 1 |}]
  ∧ [{| home_team := "NYY"; away_team := "BOS"; game_pk := 1;
        pitch_number := 1 |}] ≠ [].
Proof.
  split; [by vm_compute|].
  eapply proj1, (proj1 (get_game_data_one_game
    (Ok (Some [{| home_team := "NYY"; away_team := "BOS"; game_pk := 1;
                  pitch_number := 1 |};
               {| home_team := "LAD"; away_team := "SF"; game_pk := 2;
                  pitch_number := 1 |};
               {| home_team := "NYY"; away_team := "BOS"; game_pk := 3;
                  pitch_number := 1 |}])) "BOS")).
  by vm_compute.
Defined.

(** * Properties of the quick summary *)

(** On the metrics of any two windows the two findings of the quick
    summary are computed without an error, and both are blank when one of
    the windows has no launch speed at all. *)
Theorem quick_summary_on_windows format_1f df1 name1 df2 name2 :
  ∃ m1 m2 s f,
    aggregate_metrics df1 name1 = Ok m1
    ∧ aggregate_metrics df2 name2 = Ok m2
    ∧ speed_change format_1f m1 m2 = Ok s
    ∧ fatigue_indicator m1 m2 = Ok f
    ∧ (dropna (launch_speed <$> df1) = []
       ∨ dropna (launch_speed <$> df2) = [] → s = "" ∧ f = "").
Proof.
  destruct (aggregate_metrics_Ok df1 name1) as (m1 & Hm1 & He1).
  destruct (aggregate_metrics_Ok df2 name2) as (m2 & Hm2 & He2).
  exists m1, m2.
  pose proof (entry_avg_launch_speed _ _ _ He1) as Hs1.
  pose proof (entry_avg_launch_speed _ _ _ He2) as Hs2.
  pose proof (entry_hard_hit_rate _ _ _ He1) as Hh1.
  pose proof (entry_hard_hit_rate _ _ _ He2) as Hh2.
  simpl in Hs1, Hs2, Hh1, Hh2.
  unfold speed_change, fatigue_indicator, dict_get, getitem, py_sub.
  rewrite Hs1, Hs2, Hh1, Hh2. clear Hs1 Hs2 Hh1 Hh2. simpl.
  unfold float_or_none.
  destruct (dropna (launch_speed <$> df1)) as [|x1 col1];
    destruct (dropna (launch_speed <$> df2)) as [|x2 col2]; simpl.
  - do 2 eexists. by split_and!.
  - do 2 eexists. by split_and!.
  - rewrite ?andb_false_r. do 2 eexists. by split_and!.
  - do 2 destruct (negb _ && negb _); repeat case_decide;
      do 2 eexists; (split_and!; [done..|]); by intros [?|?].
Qed.

(** * Properties of the player analysis *)

(** The recent batting average given to the prompt is computed without an
    error; it is the text N/A exactly when there is no history, and
    otherwise a number between 0 and 1, which is 0 when the history has no
    at-bat. *)
Theorem recent_avg_bounded history_df :
  ∃ v, recent_avg history_df = Ok v
    ∧ (v = VStr "N/A" ↔ history_df = None ∨ history_df = Some [])
    ∧ (∀ df, history_df = Some df → df ≠ [] →
       ∃ q, as_number v = Some q ∧ (0 <= q)%Q ∧ (q <= 1)%Q
            ∧ (Forall (λ e, e ∈ non_at_bat_events) (dropna (events <$> df))
               → v = VInt 0)).
Proof.
  unfold recent_avg. destruct history_df as [df|].
  2:{ eexists. split; [done|]. split; [by split; [left|]|]. by intros. }
  destruct (decide (df = [])) as [->|Hne].
  { eexists. split; [done|]. split; [by split; [right|]|].
    by intros ? [= <-]. }
  cbv zeta.
  set (evs := dropna (events <$> df)).
  set (hs := count_isin ["single"; "double"; "triple"; "home_run"] evs).
  set (ab := Z.of_nat (length (filter (λ e, e ∉ non_at_bat_events) evs))).
  assert (0 ≤ hs ≤ ab) as Hc.
  { unfold hs, ab, count_isin. split; [lia|]. apply inj_le.
    apply length_filter_impl. intros x. unfold non_at_bat_events.
    set_solver. }
  destruct (decide (0 < ab)) as [Hpos|Hzero].
  - unfold np_true_divide. rewrite decide_False.
    2:{ unfold Qeq. simpl. lia. }
    cbn [bind]. eexists. split; [done|]. split.
    { split; [done|]. intros [?|[= ->]]; done. }
    intros ? [= <-] _.
    destruct (ratio_bounds _ _ Hc Hpos) as [Hlo Hhi].
    destruct (py_round_bounds (inject_Z hs / inject_Z ab) 3 0 1) as [? ?];
      [done..|].
    eexists. split; [done|]. split; [done|]. split; [done|].
    intros Hall. exfalso. unfold ab in Hpos.
    rewrite filter_none in Hpos; [simpl in Hpos; lia|].
    eapply Forall_impl; [exact Hall|]. simpl. tauto.
  - eexists. split; [done|]. split.
    { split; [done|]. intros [?|[= ->]]; done. }
    intros ? [= <-] _. exists 0%Q. split; [done|].
    split; [lra|]. split; [lra|done].
Qed.

(** * The aggregator on binary64 numbers and on frames with any columns *)

Lemma Binary64_whiff_percent_Ok misses swings :
  Binary64.whiff_percent misses swings
  = Ok (if decide (0 < swings) then
          Binary64.VFloat
            (Binary64.py_round
               (Binary64.mul
                  (Binary64.of_Q (inject_Z misses / inject_Z swings))
                  (Binary64.of_int 100)) 2)
        else Binary64.VNone).
Proof.
  unfold Binary64.whiff_percent, Binary64.int_truediv.
  destruct (decide (0 < swings)); [|done]. by rewrite decide_False by lia.
Qed.

(** On a frame that has the columns, the aggregator returns. *)
Lemma Binary64_aggregate_metrics_Ok series_sum df name :
  Forall (λ c, c ∈ Binary64.columns df) Binary64.statcast_columns →
  ∃ m, Binary64.aggregate_metrics series_sum df name = Ok m
       ∧ Binary64.metrics_entries series_sum df name m.
Proof.
  intros Hc. unfold Binary64.statcast_columns in Hc.
  repeat (apply Forall_cons in Hc as [? Hc]).
  unfold Binary64.aggregate_metrics, Binary64.column.
  rewrite !decide_True by done. cbn [bind].
  rewrite Binary64_whiff_percent_Ok. cbn [bind]. cbv zeta.
  eexists. split; [reflexivity|].
  split; intros; repeat (rewrite lookup_insert_ne by done);
    by rewrite lookup_insert_eq.
Qed.

(** On a frame that lacks one of the columns, the aggregator raises the
    [KeyError] of the first column it misses. *)
Lemma Binary64_aggregate_metrics_KeyError series_sum df name c :
  head (filter (λ c, c ∉ Binary64.columns df) Binary64.statcast_columns)
  = Some c →
  Binary64.aggregate_metrics series_sum df name = Raise (KeyError c).
Proof.
  unfold Binary64.statcast_columns, Binary64.aggregate_metrics,
    Binary64.column.
  repeat (rewrite filter_cons;
          match goal with
          | |- context [decide (?x ∉ Binary64.columns df)] =>
              destruct (decide (x ∉ Binary64.columns df));
              [rewrite (decide_False (P := x ∈ Binary64.columns df)) by done;
               cbn [bind head]; by intros [= <-]
              |rewrite !(decide_True (P := x ∈ Binary64.columns df))
                 by (by apply dec_stable);
               cbn [bind]; rewrite ?Binary64_whiff_percent_Ok; cbn [bind]]
          end).
  done.
Qed.

(** ** BABIP *)

Lemma Binary64_statcast_frame_columns rows :
  Forall (λ c, c ∈ Binary64.columns (Binary64.statcast_frame rows))
    Binary64.statcast_columns.
Proof. by apply Forall_forall. Qed.

(** C4, as stated, fails: a window whose only event is one single has the
    BABIP denominator 1, not 0, and its [babip] is 1.0, not null. *)
Lemma babip_of_one_single_is_not_null :
  babip_denominator
    (dropna (Binary64.events <$> [Binary64.event_row 0 (Some "single")]))
  = 1
  ∧ ∃ m, Binary64.aggregate_metrics Binary64.sequential_sum
           (Binary64.statcast_frame [Binary64.event_row 0 (Some "single")])
           "Early" = Ok m
         ∧ m !! "babip" = Some (Binary64.VFloat (Binary64.of_int 1))
         ∧ m !! "babip" ≠ Some Binary64.VNone.
Proof.
  split; [done|].
  destruct (Binary64_aggregate_metrics_Ok Binary64.sequential_sum
              (Binary64.statcast_frame
                 [Binary64.event_row 0 (Some "single")]) "Early")
    as (m & Hm & He); [apply Binary64_statcast_frame_columns|].
  exists m. split; [done|]. rewrite (Binary64.entry_babip _ _ _ _ He).
  by vm_compute.
Qed.

(** C4, amended: on a window that has the columns, [babip] is null exactly
    when the denominator [at_bats - strikeouts - home_runs + sac_flies] is
    [<= 0], and otherwise it is [(hits - home_runs)] divided by the
    denominator in binary64, rounded to 3 decimals the way numpy rounds
    (times 1000, to the nearest integer, divided by 1000): 203 over 400
    gives 0.507.  In a window with exactly one single and no strikeout,
    home run, sacrifice fly or other at-bat event the denominator is 1 and
    [babip] is 1.0. *)
Theorem babip_entry series_sum df name :
  let evs := dropna (Binary64.events <$> Binary64.rows df) in
  let denominator :=
    at_bats evs - strikeouts evs - home_runs evs + sac_flies evs in
  Forall (λ c, c ∈ Binary64.columns df) Binary64.statcast_columns →
  ∃ m, Binary64.aggregate_metrics series_sum df name = Ok m
    ∧ (m !! "babip" = Some Binary64.VNone ↔ denominator ≤ 0)
    ∧ (0 < denominator →
       m !! "babip"
       = Some (Binary64.VFloat
                 (Binary64.np_round
                    (Binary64.div
                       (Binary64.of_int (hits evs - home_runs evs))
                       (Binary64.of_int denominator)) 3)))
    ∧ (hits evs - home_runs evs = 203 → denominator = 400 →
       m !! "babip" = Some (Binary64.VFloat (Binary64.literal 507 3)))
    ∧ (∀ others,
         evs ≡ₚ "single" :: others →
         Forall (λ e, (e ∉ at_bat_events) ∧ (e ≠ "sac_fly")) others →
         denominator = 1
         ∧ m !! "babip" = Some (Binary64.VFloat (Binary64.of_int 1))).
Proof.
  intros evs denominator Hc.
  destruct (Binary64_aggregate_metrics_Ok series_sum df name Hc)
    as (m & Hm & He).
  exists m. split; [done|]. rewrite (Binary64.entry_babip _ _ _ _ He).
  fold evs. unfold babip_denominator, babip_numerator. fold denominator.
  unfold Binary64.rounded_ratio. split; [|split; [|split]].
  - destruct (decide _); split; (done || lia).
  - intros Hd. by rewrite decide_True.
  - intros Hnum Hden. rewrite Hnum, Hden. by vm_compute.
  - intros others Hp Ho.
    destruct (counts_of_one_single _ _ Hp Ho) as (Hh & Ha & Hk & Hr & Hs).
    assert (denominator = 1) as Hden by (unfold denominator; lia).
    split; [done|]. rewrite Hden, Hh, Hr. by vm_compute.
Qed.

Lemma babip_entry_witness :
  ∃ m, Binary64.aggregate_metrics Binary64.sequential_sum
         (Binary64.statcast_frame [Binary64.event_row 0 (Some "single");
                                   Binary64.event_row 0 (Some "walk")])
         "Early" = Ok m
    ∧ m !! "babip" = Some (Binary64.VFloat (Binary64.of_int 1)).
Proof.
  destruct (babip_entry Binary64.sequential_sum
              (Binary64.statcast_frame [Binary64.event_row 0 (Some "single");
                                        Binary64.event_row 0 (Some "walk")])
              "Early" (Binary64_statcast_frame_columns _))
    as (m & Hm & _ & _ & _ & Hs).
  exists m. split; [exact Hm|].
  apply (Hs ["walk"]); [reflexivity|].
  apply Forall_singleton. split; [|discriminate].
  unfold at_bat_events. set_solver.
Defined.

(** ** Missing data *)

Lemma Binary64_dropna_float_all_nan (f : Binary64.Row → Binary64.float)
    (rows : list Binary64.Row) :
  Forall (λ r, Binary64.isnan (f r) = true) rows →
  Binary64.dropna_float (f <$> rows) = [].
Proof.
  intros Hnan. unfold Binary64.dropna_float. apply filter_none.
  apply Forall_fmap. eapply Forall_impl; [exact Hnan|].
  simpl. intros r Hr. by rewrite Hr.
Qed.

Lemma Binary64_events_all_null (rows : list Binary64.Row) :
  Forall (λ r, Binary64.events r = None) rows →
  dropna (Binary64.events <$> rows) = []
  ∧ filter is_Some (Binary64.events <$> rows) = [].
Proof.
  induction 1 as [|r rows Hr _ [IH1 IH2]]; [done|].
  unfold dropna in *. rewrite fmap_cons, Hr. split; [done|].
  rewrite filter_cons_False; [done|]. by intros [? ?].
Qed.

Lemma Binary64_description_all_null (names : list string)
    (rows : list Binary64.Row) :
  Forall (λ r, Binary64.description r = None) rows →
  filter (λ d, d ∈ Some <$> names) (Binary64.description <$> rows) = [].
Proof.
  intros Hnull. apply filter_none. apply Forall_fmap.
  eapply Forall_impl; [exact Hnull|]. simpl. intros r -> Hin.
  apply list_elem_of_fmap in Hin as (d & Hd & _). discriminate.
Qed.

(** C6, as stated, fails.  In a window whose [events] are null on every
    record, the counting metrics [home_runs], [walks], [strikeouts] and
    [plate_appearances] are 0, not null; and a window that lacks the column
    [launch_speed] raises [KeyError('launch_speed')]. *)
Lemma missing_data_is_not_always_null :
  (Forall (λ r, Binary64.events r = None) [Binary64.event_row 0 None]
   ∧ ∃ m, Binary64.aggregate_metrics Binary64.sequential_sum
            (Binary64.statcast_frame [Binary64.event_row 0 None]) "Early"
          = Ok m
          ∧ m !! "home_runs" = Some (Binary64.VInt 0)
          ∧ m !! "walks" = Some (Binary64.VInt 0)
          ∧ m !! "strikeouts" = Some (Binary64.VInt 0)
          ∧ m !! "plate_appearances" = Some (Binary64.VInt 0)
          ∧ m !! "home_runs" ≠ Some Binary64.VNone)
  ∧ Binary64.aggregate_metrics Binary64.sequential_sum
      {| Binary64.columns := ["game_date"; "events"];
         Binary64.rows := [Binary64.event_row 0 None] |} "Early"
    = Raise (KeyError "launch_speed").
Proof.
  split; [|by apply Binary64_aggregate_metrics_KeyError].
  split; [by apply Forall_singleton|].
  destruct (Binary64_aggregate_metrics_Ok Binary64.sequential_sum
              (Binary64.statcast_frame [Binary64.event_row 0 None]) "Early")
    as (m & Hm & He); [apply Binary64_statcast_frame_columns|].
  exists m. split; [done|].
  rewrite (Binary64.entry_home_runs _ _ _ _ He),
    (Binary64.entry_walks _ _ _ _ He),
    (Binary64.entry_strikeouts _ _ _ _ He),
    (Binary64.entry_plate_appearances _ _ _ _ He).
  by vm_compute.
Qed.

(** C6, amended: on a window that has the columns [game_date], [events],
    [launch_speed], [launch_angle], [description], [hit_distance_sc] and
    [release_spin_rate], [aggregate_metrics] returns.  An average, a
    maximum or a rate whose field is null on every record is null, while
    the counting metrics are then 0; and a ratio whose denominator is zero
    is null, no division being evaluated.  A window that lacks one of the
    columns raises the [KeyError] of the first one the aggregator reads. *)
Theorem aggregate_metrics_missing_data series_sum df name :
  (Forall (λ c, c ∈ Binary64.columns df) Binary64.statcast_columns →
   ∃ m, Binary64.aggregate_metrics series_sum df name = Ok m
     ∧ (Forall (λ r, Binary64.isnan (Binary64.launch_speed r) = true)
          (Binary64.rows df) →
        m !! "avg_launch_speed" = Some Binary64.VNone
        ∧ m !! "hard_hit_rate" = Some Binary64.VNone)
     ∧ (Forall (λ r, Binary64.isnan (Binary64.launch_angle r) = true)
          (Binary64.rows df) →
        m !! "avg_launch_angle" = Some Binary64.VNone)
     ∧ (Forall (λ r, Binary64.description r = None) (Binary64.rows df) →
        m !! "whiff_rate" = Some Binary64.VNone)
     ∧ (Forall (λ r, Binary64.isnan (Binary64.hit_distance_sc r) = true)
          (Binary64.rows df) →
        m !! "max_hit_distance" = Some Binary64.VNone)
     ∧ (Forall (λ r, Binary64.isnan (Binary64.release_spin_rate r) = true)
          (Binary64.rows df) →
        m !! "avg_pitcher_spin" = Some Binary64.VNone)
     ∧ (Forall (λ r, Binary64.events r = None) (Binary64.rows df) →
        m !! "bb_rate" = Some Binary64.VNone
        ∧ m !! "k_rate" = Some Binary64.VNone
        ∧ m !! "babip" = Some Binary64.VNone
        ∧ m !! "woba" = Some Binary64.VNone
        ∧ m !! "plate_appearances" = Some (Binary64.VInt 0)
        ∧ m !! "home_runs" = Some (Binary64.VInt 0)
        ∧ m !! "walks" = Some (Binary64.VInt 0)
        ∧ m !! "strikeouts" = Some (Binary64.VInt 0))
     ∧ (length (Binary64.dropna_float
                  (Binary64.launch_speed <$> Binary64.rows df)) = 0%nat →
        m !! "hard_hit_rate" = Some Binary64.VNone)
     ∧ (length (filter (λ d, d ∈ Some <$> swing_descriptions)
                  (Binary64.description <$> Binary64.rows df)) = 0%nat →
        m !! "whiff_rate" = Some Binary64.VNone)
     ∧ (length (dropna (Binary64.events <$> Binary64.rows df)) = 0%nat →
        m !! "bb_rate" = Some Binary64.VNone
        ∧ m !! "k_rate" = Some Binary64.VNone)
     ∧ (babip_denominator (dropna (Binary64.events <$> Binary64.rows df))
        = 0 →
        m !! "babip" = Some Binary64.VNone)
     ∧ (woba_denominator (dropna (Binary64.events <$> Binary64.rows df))
        = 0 →
        m !! "woba" = Some Binary64.VNone))
  ∧ (∀ c,
       head (filter (λ c, c ∉ Binary64.columns df) Binary64.statcast_columns)
       = Some c →
       Binary64.aggregate_metrics series_sum df name = Raise (KeyError c)).
Proof.
  split; [|intros c; apply Binary64_aggregate_metrics_KeyError].
  intros Hc.
  destruct (Binary64_aggregate_metrics_Ok series_sum df name Hc)
    as (m & Hm & He).
  exists m. split; [done|].
  rewrite (Binary64.entry_avg_launch_speed _ _ _ _ He),
    (Binary64.entry_hard_hit_rate _ _ _ _ He),
    (Binary64.entry_avg_launch_angle _ _ _ _ He),
    (Binary64.entry_whiff_rate _ _ _ _ He),
    (Binary64.entry_max_hit_distance _ _ _ _ He),
    (Binary64.entry_avg_pitcher_spin _ _ _ _ He),
    (Binary64.entry_bb_rate _ _ _ _ He), (Binary64.entry_k_rate _ _ _ _ He),
    (Binary64.entry_babip _ _ _ _ He), (Binary64.entry_woba _ _ _ _ He),
    (Binary64.entry_plate_appearances _ _ _ _ He),
    (Binary64.entry_home_runs _ _ _ _ He), (Binary64.entry_walks _ _ _ _ He),
    (Binary64.entry_strikeouts _ _ _ _ He).
  cbv zeta.
  unfold Binary64.rounded_mean, Binary64.rounded_max, Binary64.percent_rate,
    Binary64.rounded_ratio.
  repeat match goal with |- _ ∧ _ => split end; intros Hnull;
    rewrite ?(Binary64_dropna_float_all_nan _ _ Hnull),
      ?(Binary64_description_all_null _ _ Hnull),
      ?(proj1 (Binary64_events_all_null _ Hnull)),
      ?(proj2 (Binary64_events_all_null _ Hnull)), ?Hnull;
    repeat match goal with |- _ ∧ _ => split end; reflexivity.
Qed.

Lemma aggregate_metrics_missing_data_witness :
  ∃ m, Binary64.aggregate_metrics Binary64.sequential_sum
         (Binary64.statcast_frame [Binary64.event_row 0 None]) "Early"
       = Ok m
    ∧ m !! "hard_hit_rate" = Some Binary64.VNone.
Proof.
  destruct (proj1 (aggregate_metrics_missing_data Binary64.sequential_sum
                     (Binary64.statcast_frame [Binary64.event_row 0 None])
                     "Early") (Binary64_statcast_frame_columns _))
    as (m & Hm & Hs & _).
  exists m. split; [exact Hm|]. apply Hs. by apply Forall_singleton.
Defined.

(** * The trend classifier on binary64 numbers *)

Lemma Binary64_of_int_1 :
  Binary64.of_int 1 = S754_finite false 4503599627370496 (-52).
Proof. reflexivity. Qed.

Lemma Binary64_of_int_0 : Binary64.of_int 0 = S754_zero false.
Proof. reflexivity. Qed.

Lemma Binary64_of_int_m1 :
  Binary64.of_int (-1) = S754_finite true 4503599627370496 (-52).
Proof. reflexivity. Qed.

Lemma Pos_compare_cont_swap p q :
  Pos.compare_cont Eq q p = CompOpp (Pos.compare_cont Eq p q).
Proof. apply (Pos.compare_antisym p q). Qed.

(** The comparisons of a float with 1, 0 and -1, by the shape of the
    float. *)
Ltac float_cases d :=
  destruct d as [[]|[]| |[] m e];
  rewrite ?Binary64_of_int_1, ?Binary64_of_int_0, ?Binary64_of_int_m1;
  unfold Binary64.ltb, Binary64.leb, Binary64.eqb, Binary64.abs,
    Binary64.isnan, SFltb, SFleb, SFeqb, SFabs;
  cbn [SFcompare];
  rewrite ?(Z.compare_antisym e (-52)),
    ?(Pos_compare_cont_swap m 4503599627370496);
  try destruct (e ?= -52);
  try destruct (Pos.compare_cont Eq m 4503599627370496);
  cbn [CompOpp].

(** C5: the classifier answers [insufficient_data] when either value is
    null; otherwise, with [diff] the binary64 difference [late - early],
    it answers [stable] when [|diff| < 1], [increasing] when [diff >= 1]
    and [decreasing] when [diff <= -1], and one of the three holds unless
    [diff] is NaN.  So 88.0 then 89.5 is increasing, 90.0 then 90.3 is
    stable, and 95.0 then 92.0 is decreasing.  The Mid value plays no
    part. *)
Theorem calculate_trend_labels :
  (∀ mid late,
     Binary64._calculate_trend None mid late = "insufficient_data")
  ∧ (∀ early mid,
       Binary64._calculate_trend early mid None = "insufficient_data")
  ∧ (∀ e mid l,
       let diff := Binary64.sub l e in
       let label := Binary64._calculate_trend (Some e) mid (Some l) in
       (Binary64.ltb (Binary64.abs diff) (Binary64.of_int 1) = true →
        label = "stable")
       ∧ (Binary64.leb (Binary64.of_int 1) diff = true →
          label = "increasing")
       ∧ (Binary64.leb diff (Binary64.of_int (-1)) = true →
          label = "decreasing")
       ∧ (Binary64.isnan diff = false →
          Binary64.ltb (Binary64.abs diff) (Binary64.of_int 1) = true
          ∨ Binary64.leb (Binary64.of_int 1) diff = true
          ∨ Binary64.leb diff (Binary64.of_int (-1)) = true))
  ∧ Binary64._calculate_trend (Some (Binary64.literal 880 1)) None
      (Some (Binary64.literal 895 1)) = "increasing"
  ∧ Binary64._calculate_trend (Some (Binary64.literal 900 1)) None
      (Some (Binary64.literal 903 1)) = "stable"
  ∧ Binary64._calculate_trend (Some (Binary64.literal 950 1)) None
      (Some (Binary64.literal 920 1)) = "decreasing".
Proof.
  split; [done|]. split; [by intros [e|]|].
  split; [|by vm_compute].
  intros e mid l diff label. subst label. unfold Binary64._calculate_trend.
  fold diff. generalize diff. clear. intros d.
  float_cases d; repeat split; intros; try done; auto.
Qed.

Lemma calculate_trend_labels_witness :
  Binary64._calculate_trend (Some (Binary64.literal 880 1)) None
    (Some (Binary64.literal 890 1)) = "increasing"
  ∧ Binary64._calculate_trend (Some (Binary64.literal 900 1)) None
      (Some (Binary64.literal 895 1)) = "stable"
  ∧ Binary64._calculate_trend (Some (Binary64.literal 900 1)) None
      (Some (Binary64.literal 890 1)) = "decreasing".
Proof.
  destruct calculate_trend_labels as (_ & _ & H & _).
  split; [|split].
  - apply (H (Binary64.literal 880 1) None (Binary64.literal 890 1)).
    by vm_compute.
  - apply (H (Binary64.literal 900 1) None (Binary64.literal 895 1)).
    by vm_compute.
  - apply (H (Binary64.literal 900 1) None (Binary64.literal 890 1)).
    by vm_compute.
Defined.

(** At the threshold the binary64 difference decides: 8.03 - 7.03 is
    below 1 and the label is stable; 1.2 - 0.2 is exactly 1 and the label
    is increasing, though the rationals that the two floats denote differ
    by less than 1. *)
Example calculate_trend_at_the_threshold :
  Binary64._calculate_trend (Some (Binary64.literal 703 2)) None
    (Some (Binary64.literal 803 2)) = "stable"
  ∧ Binary64._calculate_trend (Some (Binary64.literal 2 1)) None
      (Some (Binary64.literal 12 1)) = "increasing"
  ∧ (Binary64.to_Q (Binary64.literal 12 1)
     - Binary64.to_Q (Binary64.literal 2 1) < 1)%Q.
Proof. by vm_compute. Qed.

(** * The quick summary on binary64 numbers *)


